(** * A shallow embedding of the to-do list service of [src/index.js]

    The service keeps one global array [users]; four middlewares guard
    eight Express routes.  This development embeds the middlewares and
    the route handlers as functions over an explicit store and proves
    the properties of the request-validation-and-dispatch layer.

    Modelling conventions.

    - A JavaScript value that comes out of a JSON body or a header is a
      [jsval]; [strict_eq] is the [===] operator on those values.
    - The array [users] is only ever extended with [push] and user
      objects are never compared by identity, so a reference to a user
      object is its index in [users] and a mutation through that
      reference is an update at that index.
    - Task objects are compared by identity ([indexOf]) and mutated
      through the alias [request.todo], so they live in a heap
      ([gmap loc Todo]) and a user's [todos] array holds locations.
    - The two sources of nondeterminism, [uuidv4()] and [new Date()],
      are read from an environment [Env] that comes with each request. *)

From Stdlib Require Import Ascii String ZArith.
From Stdlib Require Import Floats.SpecFloat.
From stdpp Require Import gmap strings list.

Open Scope string_scope.
Open Scope list_scope.

(** ** JavaScript values *)

Module JS.

(** The values [JSON.parse] can put in a body field, plus [undefined]
    for an absent field.  An array or an object carries the identity
    of the object, which [===] compares, and its content, which
    [new Date] reads.  [JSON.parse] allocates the arrays and objects
    of each body, so in a run of the service the [ref] of a body value
    differs from the [ref] of every value parsed before; the theorems
    below hold for every [ref]. *)
#[warnings="-register-all"]
Inductive jsval : Type :=
| JUndefined
| JNull
| JBool (b : bool)
| JNum (x : spec_float)
| JStr (s : string)
| JArr (ref : positive) (items : list jsval)
| JObj (ref : positive) (fields : list (string * jsval)).

(** [a === b]: by value on primitives, by reference on arrays and
    objects. *)
Definition strict_eq (a b : jsval) : bool :=
  match a, b with
  | JUndefined, JUndefined => true
  | JNull, JNull => true
  | JBool x, JBool y => Bool.eqb x y
  | JNum x, JNum y => SFeqb x y
  | JStr x, JStr y => String.eqb x y
  | JArr x _, JArr y _ => Pos.eqb x y
  | JObj x _, JObj y _ => Pos.eqb x y
  | _, _ => false
  end.

(** Neither an array nor an object. *)
Definition is_primitive (v : jsval) : bool :=
  match v with
  | JArr _ _ | JObj _ _ => false
  | _ => true
  end.

(** Equality of what two values hold, the identity of arrays and
    objects apart: the same primitive, or arrays of equal items, or
    objects of equal fields in the same order. *)
Fixpoint same_value (a b : jsval) {struct a} : bool :=
  match a, b with
  | JUndefined, JUndefined => true
  | JNull, JNull => true
  | JBool x, JBool y => Bool.eqb x y
  | JNum x, JNum y => SFeqb x y
  | JStr x, JStr y => String.eqb x y
  | JArr _ xs, JArr _ ys =>
      (fix items (xs ys : list jsval) {struct xs} : bool :=
         match xs, ys with
         | [], [] => true
         | x :: xs', y :: ys' => same_value x y && items xs' ys'
         | _, _ => false
         end) xs ys
  | JObj _ fs, JObj _ gs =>
      (fix fields (fs gs : list (string * jsval)) {struct fs} : bool :=
         match fs, gs with
         | [], [] => true
         | (k, x) :: fs', (k', y) :: gs' =>
             String.eqb k k' && same_value x y && fields fs' gs'
         | _, _ => false
         end) fs gs
  | _, _ => false
  end.

(** The object has an own property of that name. *)
Definition has_key (k : string) (fields : list (string * jsval)) : bool :=
  existsb (λ kv, String.eqb (fst kv) k) fields.

(** Whether converting the value to a primitive throws a [TypeError].
    A value parsed from JSON holds no function.  For an object the
    conversion calls [valueOf], which is [Object.prototype.valueOf] and
    returns the object itself unless an own property [valueOf] hides it,
    and then [toString]: [Object.prototype.toString] returns a string,
    but an own property [toString] hides it with a value that cannot be
    called, and the conversion throws.  For an array [toString] joins
    the items, converting each one that is neither [undefined] nor
    [null] to a string, which throws when it throws for an item. *)
Fixpoint to_primitive_throws (v : jsval) : bool :=
  match v with
  | JArr _ items => existsb to_primitive_throws items
  | JObj _ fields => has_key "toString" fields
  | _ => false
  end.

(** [request.headers.username] is a string, or [undefined] when the
    header is absent. *)
Definition header_value (h : option string) : jsval :=
  match h with
  | Some s => JStr s
  | None => JUndefined
  end.

(** A [Date] object, kept symbolic: built from a body value by
    [new Date(v)] or from the clock by [new Date()]. *)
Inductive Date : Type :=
| DateOf (v : jsval)
| DateNow (ms : Z).

(** [new Date(v)]: the constructor first converts [v] to a primitive;
    [None] stands for the [TypeError] of that conversion. *)
Definition new_Date (v : jsval) : option Date :=
  if to_primitive_throws v then None else Some (DateOf v).

End JS.
Export JS.

(** ** The [uuid] package: [validate]

    [src/index.js] imports [validate] from the npm package [uuid]
    ([const { v4: uuidv4, validate } = require("uuid")]).  The package
    defines it as [typeof uuid === 'string' && REGEX.test(uuid)] with

    [/^(?:[0-9a-f]{8}-[0-9a-f]{4}-[1-5][0-9a-f]{3}-[89ab][0-9a-f]{3}-[0-9a-f]{12}|00000000-0000-0000-0000-000000000000)$/i]

    (releases 8.3 to 9).  The function has a single parameter: it tells
    whether the string is a UUID of any version from 1 to 5 or the nil
    UUID, and the package offers [version] to read the version of
    one. *)

Module Uuid.

Definition in_range (lo hi : nat) (c : ascii) : bool :=
  let n := nat_of_ascii c in (lo <=? n)%nat && (n <=? hi)%nat.

(** [[0-9a-f]] under the [i] flag. *)
Definition hex (c : ascii) : bool :=
  in_range 48 57 c || in_range 97 102 c || in_range 65 70 c.

Definition dash (c : ascii) : bool := Ascii.eqb c "-"%char.

(** [[1-5]] *)
Definition version_1_5 (c : ascii) : bool := in_range 49 53 c.

(** [[89ab]] under the [i] flag. *)
Definition variant (c : ascii) : bool :=
  in_range 56 57 c || in_range 97 98 c || in_range 65 66 c.

(** The version nibble of a version-4 UUID. *)
Definition version_4 (c : ascii) : bool := Ascii.eqb c "4"%char.

(** A sequence of one-character classes matched against the whole
    string, as the anchors [^] and [$] demand. *)
Fixpoint matches (classes : list (ascii -> bool)) (s : string) : bool :=
  match classes, s with
  | [], EmptyString => true
  | cl :: classes', String c s' => cl c && matches classes' s'
  | _, _ => false
  end.

(** The five groups 8-4-4-4-12, with the class of the version nibble as
    a parameter. *)
Definition layout (version : ascii -> bool) : list (ascii -> bool) :=
  replicate 8 hex ++ [dash] ++
  replicate 4 hex ++ [dash] ++
  [version] ++ replicate 3 hex ++ [dash] ++
  [variant] ++ replicate 3 hex ++ [dash] ++
  replicate 12 hex.

Definition nil_uuid : string := "00000000-0000-0000-0000-000000000000".

Definition REGEX_test (s : string) : bool :=
  matches (layout version_1_5) s || String.eqb s nil_uuid.

(** [validate(uuid)]; the argument is a string by typing. *)
Definition validate (uuid : string) : bool := REGEX_test uuid.

(** What the specification calls a well-formed version-4 UUID: the
    8-4-4-4-12 layout with version nibble 4 and an RFC 4122 variant. *)
Definition is_uuid_v4 (s : string) : bool := matches (layout version_4) s.

End Uuid.
Export Uuid.

(** ** Data model *)

(** A location of a task object in the heap. *)
Abbreviation loc := positive.

(** A task object:
    [{ id, title, deadline, done, created_at }]. *)
Record Todo : Type := mkTodo {
  t_id : string;
  t_title : jsval;
  t_deadline : Date;
  t_done : bool;
  t_created_at : Date;
}.

(** A user object: [{ id, name, username, pro, todos }].  The array
    [todos] holds references to task objects. *)
Record User : Type := mkUser {
  u_id : string;
  u_name : jsval;
  u_username : jsval;
  u_pro : bool;
  u_todos : list loc;
}.

(** The program state: the global array [users] and the task objects
    it refers to. *)
Record Store : Type := mkStore {
  users : list User;
  heap : gmap loc Todo;
}.

(** [const users = []] *)
Definition empty_store : Store := {| users := []; heap := ∅ |}.

#[global] Instance Todo_inhabited : Inhabited Todo :=
  populate (mkTodo "" JUndefined (DateNow 0) false (DateNow 0)).

#[global] Instance User_inhabited : Inhabited User :=
  populate (mkUser "" JUndefined JUndefined false []).

(** Field assignments. *)
Definition set_pro (v : bool) (u : User) : User :=
  mkUser (u_id u) (u_name u) (u_username u) v (u_todos u).

Definition set_todos (ts : list loc) (u : User) : User :=
  mkUser (u_id u) (u_name u) (u_username u) (u_pro u) ts.

Definition set_title (v : jsval) (t : Todo) : Todo :=
  mkTodo (t_id t) v (t_deadline t) (t_done t) (t_created_at t).

Definition set_deadline (d : Date) (t : Todo) : Todo :=
  mkTodo (t_id t) (t_title t) d (t_done t) (t_created_at t).

Definition set_done (v : bool) (t : Todo) : Todo :=
  mkTodo (t_id t) (t_title t) (t_deadline t) v (t_created_at t).

Definition with_users (us : list User) (st : Store) : Store :=
  {| users := us; heap := heap st |}.

Definition with_heap (h : gmap loc Todo) (st : Store) : Store :=
  {| users := users st; heap := h |}.

(** Dereferences: the user object behind a user reference, the task
    object behind a location. *)
Definition user_at (st : Store) (i : nat) : User := users st !!! i.
Definition todo_at (st : Store) (l : loc) : Todo := heap st !!! l.

(** The tasks of a user, read through the heap, in array order. *)
Definition todos_of (st : Store) (u : User) : list Todo :=
  todo_at st <$> u_todos u.

(** ** Requests and responses *)

(** What [response.json] serialises for a user: the user with its
    tasks read at the time of the call. *)
Record UserJSON : Type := mkUserJSON {
  j_id : string;
  j_name : jsval;
  j_username : jsval;
  j_pro : bool;
  j_todos : list Todo;
}.

Definition user_json (st : Store) (u : User) : UserJSON :=
  mkUserJSON (u_id u) (u_name u) (u_username u) (u_pro u) (todos_of st u).

Inductive Payload : Type :=
| PError (error : string)
| PUser (u : UserJSON)
| PTodo (t : Todo)
| PTodos (ts : list Todo)
| PEmpty
| PException.

Record Response : Type := mkResponse {
  status : nat;
  payload : Payload;
}.

(** [response.status(code).json({ error })] *)
Definition error_response (code : nat) (msg : string) : Response :=
  mkResponse code (PError msg).

(** What Express answers when a handler throws a [TypeError]: by
    reading a field of [request.user] or [request.todo] that no guard
    has attached, or in [new Date(deadline)]. *)
Definition uncaught : Response := mkResponse 500 PException.

(** The request object: the parts of headers, route parameters and
    body the program reads, and the two fields the guards attach. *)
Record Request : Type := mkRequest {
  headers_username : option string;
  params_id : string;
  body_name : jsval;
  body_username : jsval;
  body_title : jsval;
  body_deadline : jsval;
  req_user : option nat;
  req_todo : option loc;
}.

(** [request.user = account] *)
Definition attach_user (i : nat) (r : Request) : Request :=
  mkRequest (headers_username r) (params_id r) (body_name r)
    (body_username r) (body_title r) (body_deadline r) (Some i) (req_todo r).

(** [request.todo = todo] *)
Definition attach_todo (l : loc) (r : Request) : Request :=
  mkRequest (headers_username r) (params_id r) (body_name r)
    (body_username r) (body_title r) (body_deadline r) (req_user r) (Some l).

(** The values the outside world supplies while a request is handled:
    the result of [uuidv4()] and the clock behind [new Date()]. *)
Record Env : Type := mkEnv {
  uuidv4 : string;
  now : Z;
}.

(** A middleware either calls [next()] with the request object as it
    then is, or sends a response and ends the pipeline. *)
Inductive Outcome : Type :=
| Next (r : Request)
| Send (res : Response).

Definition Middleware : Type := Store -> Request -> Outcome.
Definition Handler : Type := Env -> Store -> Request -> Store * Response.

(** ** Array operations *)

(** [const [x] = array.filter(p)]: the first element that satisfies
    [p], if any, here together with its index. *)
Definition first_match {A : Type} (p : A -> bool) (l : list A)
  : option (nat * A) :=
  list_find (λ x, Is_true (p x)) l.

(** [array.indexOf(x)] on an array of object references: the first
    index that holds that very object; [None] stands for [-1]. *)
Definition indexOf (l : list loc) (x : loc) : option nat :=
  fst <$> list_find (λ y, y = x) l.

(** [array.splice(k, 1)] *)
Definition splice1 {A : Type} (k : nat) (l : list A) : list A := delete k l.

(** ** The four middlewares *)

(** [checksExistsUserAccount] *)
Definition checksExistsUserAccount : Middleware := λ st request,
  let username := header_value (headers_username request) in
  let account :=
    first_match (λ user, strict_eq (u_username user) username) (users st) in
  match account with
  | None => Send (error_response 404 "User not found!")
  | Some (i, _) => Next (attach_user i request)
  end.

(** [checksCreateTodosUserAvailability] *)
Definition checksCreateTodosUserAvailability : Middleware := λ st request,
  match req_user request with
  | None => Send uncaught
  | Some i =>
      let user := user_at st i in
      if (length (u_todos user) <? 10)%nat || u_pro user
      then Next request
      else Send (error_response 403 "User is not PRO")
  end.

(** The loop [for (const todo of account.todos)] of [checksTodoExists]:
    every task whose id is [id] attaches the account and itself. *)
Definition attach_matching (st : Store) (i : nat) (id : string)
    (todos : list loc) (request : Request) : Request :=
  fold_left
    (λ r l, if String.eqb (t_id (todo_at st l)) id
            then attach_todo l (attach_user i r)
            else r)
    todos request.

(** [checksTodoExists].  The call in the source is [validate(id, 4)];
    [validate] takes one argument, so the [4] has no effect. *)
Definition checksTodoExists : Middleware := λ st request,
  let username := header_value (headers_username request) in
  let id := params_id request in
  let account :=
    first_match (λ user, strict_eq (u_username user) username) (users st) in
  let validateId := validate id in
  if negb validateId then
    Send (error_response 400 "Id is not uuid")
  else
    match account with
    | Some (i, account) =>
        let todoIdExists :=
          existsb (λ l, String.eqb (t_id (todo_at st l)) id)
                  (u_todos account) in
        if todoIdExists
        then Next (attach_matching st i id (u_todos account) request)
        else Send (error_response 404 "Todo not found")
    | None => Send (error_response 404 "User not found")
    end.

(** [findUserById] *)
Definition findUserById : Middleware := λ st request,
  let id := params_id request in
  let user := first_match (λ account, String.eqb (u_id account) id) (users st) in
  match user with
  | None => Send (error_response 404 "User not found!")
  | Some (i, _) => Next (attach_user i request)
  end.

(** ** The route handlers *)

(** [app.post("/users", ...)] *)
Definition post_users : Handler := λ env st request,
  let name := body_name request in
  let username := body_username request in
  let usernameAlreadyExists :=
    existsb (λ user, strict_eq (u_username user) username) (users st) in
  if usernameAlreadyExists then
    (st, error_response 400 "Username already exists")
  else
    let user := mkUser (uuidv4 env) name username false [] in
    let st' := with_users (users st ++ [user]) st in
    (st', mkResponse 201 (PUser (user_json st' user))).

(** [app.get("/users/:id", findUserById, ...)] *)
Definition get_user : Handler := λ env st request,
  match req_user request with
  | None => (st, mkResponse 200 PEmpty)
  | Some i => (st, mkResponse 200 (PUser (user_json st (user_at st i))))
  end.

(** [app.patch("/users/:id/pro", findUserById, ...)] *)
Definition patch_user_pro : Handler := λ env st request,
  match req_user request with
  | None => (st, uncaught)
  | Some i =>
      let user := user_at st i in
      if u_pro user then
        (st, error_response 400 "Pro plan is already activated.")
      else
        let st' := with_users (<[i := set_pro true user]> (users st)) st in
        (st', mkResponse 200 (PUser (user_json st' (user_at st' i))))
  end.

(** [app.get("/todos", checksExistsUserAccount, ...)] *)
Definition get_todos : Handler := λ env st request,
  match req_user request with
  | None => (st, uncaught)
  | Some i => (st, mkResponse 200 (PTodos (todos_of st (user_at st i))))
  end.

(** [app.post("/todos", checksExistsUserAccount,
    checksCreateTodosUserAvailability, ...)].  The object literal
    [newTodo] is built before anything is written: when
    [new Date(deadline)] throws, nothing is pushed. *)
Definition post_todos : Handler := λ env st request,
  let title := body_title request in
  let deadline := body_deadline request in
  match new_Date deadline with
  | None => (st, uncaught)
  | Some date =>
      match req_user request with
      | None => (st, uncaught)
      | Some i =>
          let user := user_at st i in
          let newTodo :=
            mkTodo (uuidv4 env) title date false (DateNow (now env)) in
          let l := fresh (dom (heap st)) in
          let st' :=
            mkStore (<[i := set_todos (u_todos user ++ [l]) user]> (users st))
                    (<[l := newTodo]> (heap st)) in
          (st', mkResponse 201 (PTodo (todo_at st' l)))
      end
  end.

(** [app.put("/todos/:id", checksTodoExists, ...)].  The title is
    assigned first: when [new Date(deadline)] then throws, the new title
    stays and the deadline is the old one. *)
Definition put_todo : Handler := λ env st request,
  let title := body_title request in
  let deadline := body_deadline request in
  match req_todo request with
  | None => (st, uncaught)
  | Some l =>
      let st1 := with_heap (<[l := set_title title (todo_at st l)]> (heap st)) st in
      match new_Date deadline with
      | None => (st1, uncaught)
      | Some date =>
          let st2 :=
            with_heap (<[l := set_deadline date (todo_at st1 l)]> (heap st1))
                      st1 in
          (st2, mkResponse 200 (PTodo (todo_at st2 l)))
      end
  end.

(** [app.patch("/todos/:id/done", checksTodoExists, ...)] *)
Definition patch_todo_done : Handler := λ env st request,
  match req_todo request with
  | None => (st, uncaught)
  | Some l =>
      let st' := with_heap (<[l := set_done true (todo_at st l)]> (heap st)) st in
      (st', mkResponse 200 (PTodo (todo_at st' l)))
  end.

(** [app.delete("/todos/:id", checksExistsUserAccount, checksTodoExists,
    ...)].  With [request.todo] undefined, [indexOf] finds nothing. *)
Definition delete_todo : Handler := λ env st request,
  match req_user request with
  | None => (st, uncaught)
  | Some i =>
      let user := user_at st i in
      let todoIndex :=
        match req_todo request with
        | Some l => indexOf (u_todos user) l
        | None => None
        end in
      match todoIndex with
      | None => (st, error_response 404 "Todo not found")
      | Some k =>
          let st' :=
            with_users
              (<[i := set_todos (splice1 k (u_todos user)) user]> (users st)) st in
          (st', mkResponse 204 PEmpty)
      end
  end.

(** ** Routing *)

(** Express runs the middlewares of a route in order; the first one
    that sends a response ends the request, otherwise the handler
    runs on the request object the middlewares have enriched. *)
Fixpoint pipeline (guards : list Middleware) (handler : Handler)
    (env : Env) (st : Store) (request : Request) : Store * Response :=
  match guards with
  | [] => handler env st request
  | guard :: guards' =>
      match guard st request with
      | Next request' => pipeline guards' handler env st request'
      | Send res => (st, res)
      end
  end.

Inductive Route : Type :=
| POST_users
| GET_users_id
| PATCH_users_id_pro
| GET_todos
| POST_todos
| PUT_todos_id
| PATCH_todos_id_done
| DELETE_todos_id.

(** The routing table of [app]. *)
Definition app (route : Route) : Env -> Store -> Request -> Store * Response :=
  match route with
  | POST_users => pipeline [] post_users
  | GET_users_id => pipeline [findUserById] get_user
  | PATCH_users_id_pro => pipeline [findUserById] patch_user_pro
  | GET_todos => pipeline [checksExistsUserAccount] get_todos
  | POST_todos =>
      pipeline [checksExistsUserAccount; checksCreateTodosUserAvailability]
               post_todos
  | PUT_todos_id => pipeline [checksTodoExists] put_todo
  | PATCH_todos_id_done => pipeline [checksTodoExists] patch_todo_done
  | DELETE_todos_id =>
      pipeline [checksExistsUserAccount; checksTodoExists] delete_todo
  end.

(** One incoming HTTP request: the route it is dispatched to, the
    values the environment supplies and the request object, on which
    nothing is attached yet. *)
Record Call : Type := mkCall {
  call_route : Route;
  call_env : Env;
  call_request : Request;
}.

Definition incoming (r : Request) : Request :=
  mkRequest (headers_username r) (params_id r) (body_name r)
    (body_username r) (body_title r) (body_deadline r) None None.

Definition serve (st : Store) (c : Call) : Store * Response :=
  app (call_route c) (call_env c) st (incoming (call_request c)).

(** The stores the service can be in: the empty one at start-up, and
    the store after each request served. *)
Inductive reachable : Store -> Prop :=
| reachable_start : reachable empty_store
| reachable_serve st c : reachable st -> reachable (serve st c).1.

(** Serving a sequence of requests, collecting the responses. *)
Fixpoint serve_all (st : Store) (cs : list Call) : Store * list Response :=
  match cs with
  | [] => (st, [])
  | c :: cs' =>
      let '(st1, res) := serve st c in
      let '(st2, ress) := serve_all st1 cs' in
      (st2, res :: ress)
  end.

(** * Vocabulary of the properties *)

(** ** Accounts *)

(** [is_account st username i user]: [user] is the first element of
    [users] whose username is [username], and it sits at index [i].
    This is the object the middlewares bind to [account]. *)
Definition is_account (st : Store) (username : jsval) (i : nat) (user : User)
  : Prop :=
  users st !! i = Some user ∧
  strict_eq (u_username user) username = true ∧
  ∀ j u, users st !! j = Some u → j < i →
         strict_eq (u_username u) username = false.

(** No user of the store has the username. *)
Definition no_account (st : Store) (username : jsval) : Prop :=
  ∀ user, user ∈ users st → strict_eq (u_username user) username = false.

(** [is_user_by_id st id i user]: [user] is the first element of
    [users] whose id is [id], at index [i]; the object [findUserById]
    attaches. *)
Definition is_user_by_id (st : Store) (id : string) (i : nat) (user : User)
  : Prop :=
  users st !! i = Some user ∧
  String.eqb (u_id user) id = true ∧
  ∀ j u, users st !! j = Some u → j < i → String.eqb (u_id u) id = false.

(** What a request leaves of a user object: its id, name and username,
    and its pro plan if it had one. *)
Definition user_persists (u u' : User) : Prop :=
  u_id u' = u_id u ∧
  u_name u' = u_name u ∧
  u_username u' = u_username u ∧
  (u_pro u = true → u_pro u' = true).

(** ** Usernames *)

(** The usernames of the store, in array order. *)
Definition usernames (st : Store) : list jsval := u_username <$> users st.

(** What a request can do to the list of usernames: nothing, or add
    at the end a username that no user had. *)
Inductive usernames_step (st st' : Store) : Prop :=
| usernames_kept :
    usernames st' = usernames st → usernames_step st st'
| usernames_added username :
    usernames st' = usernames st ++ [username] →
    no_account st username →
    usernames_step st st'.

(** No username occurs at two positions, [===] being the test. *)
Definition distinct (vs : list jsval) : Prop :=
  ∀ i j a b, vs !! i = Some a → vs !! j = Some b → i ≠ j →
             strict_eq a b = false.

(** ** Ownership of task objects *)

(** Every reference in a user's [todos] array points into the heap,
    and no array holds the same reference twice: each reference was
    pushed once, right after the object was allocated. *)
Definition owned (h : gmap loc Todo) (u : User) : Prop :=
  NoDup (u_todos u) ∧ ∀ l, l ∈ u_todos u → l ∈ dom h.

Definition todos_owned (st : Store) : Prop :=
  Forall (owned (heap st)) (users st).

(** ** Status codes *)

(** The status codes each route answers with; 500 is the answer to a
    handler that throws. *)
Definition statuses_of (route : Route) : list nat :=
  match route with
  | POST_users => [201; 400]
  | GET_users_id => [200; 404]
  | PATCH_users_id_pro => [200; 400; 404]
  | GET_todos => [200; 404]
  | POST_todos => [201; 403; 404; 500]
  | PUT_todos_id => [200; 400; 404; 500]
  | PATCH_todos_id_done => [200; 400; 404]
  | DELETE_todos_id => [204; 400; 404]
  end.

(** ** Invariants of the stores the service reaches *)

(** No task object sits in the arrays of two users. *)
Definition tasks_exclusive (st : Store) : Prop :=
  ∀ i j ui uj l,
    users st !! i = Some ui → users st !! j = Some uj →
    l ∈ u_todos ui → l ∈ u_todos uj → i = j.

(** A user on the free plan holds at most ten tasks. *)
Definition within_quota (u : User) : Prop :=
  u_pro u = false → (length (u_todos u) ≤ 10)%nat.

(** What a request leaves of a task object: its id and creation date,
    and [done] once it is set. *)
Definition task_persists (t t' : Todo) : Prop :=
  t_id t' = t_id t ∧
  t_created_at t' = t_created_at t ∧
  (t_done t = true → t_done t' = true).

(** ** Sample requests and stores *)

Module Samples.

Definition ana_id : string := "f47ac10b-58cc-4372-a567-0e02b2c3d479".
Definition task_id : string := "6ec0bd7f-11c0-43da-975e-2a8ad9ebae0b".
Definition other_task_id : string := "9b2e4f60-7c1d-4a8e-b3f5-2d6c8e0a1b47".

(** A version-1 UUID: version nibble [1], variant [b]. *)
Definition v1_id : string := "a0eebc99-9c0b-11ef-bb6d-6bb9bd380a11".

(** The number 1. *)
Definition one : jsval := JNum (S754_finite false 1 0).

(** [{ "toString": 1, "valueOf": 1 }]: an object [new Date] cannot
    convert. *)
Definition unconvertible : jsval :=
  JObj 9 [("toString", one); ("valueOf", one)].

(** [POST /users] with body [{ "username": {} }]; [ref] is the identity
    of the object the parser builds for [{}]. *)
Definition create_with_object (ref : positive) (id : string) : Call :=
  mkCall POST_users (mkEnv id 0)
    (mkRequest None "" JUndefined (JObj ref []) JUndefined JUndefined
               None None).

(** A request object with the given [username] header and [:id]. *)
Definition bare (h : option string) (id : string) : Request :=
  mkRequest h id JUndefined JUndefined JUndefined JUndefined None None.

(** [POST /users] with body [{ name: "Ana", username: "ana" }]. *)
Definition create_ana : Call :=
  mkCall POST_users (mkEnv ana_id 0)
    (mkRequest None "" (JStr "Ana") (JStr "ana") JUndefined JUndefined
               None None).

(** [POST /todos] as [ana] with body [{ title, deadline }]. *)
Definition add_task (id : string) (title : string) : Call :=
  mkCall POST_todos (mkEnv id 1000)
    (mkRequest (Some "ana") "" JUndefined JUndefined (JStr title)
               (JStr "2030-01-01") None None).

(** Ana registers, Bob registers, and someone asks for Ana's username
    again. *)
Definition registrations : list Call :=
  [create_ana;
   mkCall POST_users (mkEnv other_task_id 0)
     (mkRequest None "" (JStr "Bob") (JStr "bob") JUndefined JUndefined
                None None);
   mkCall POST_users (mkEnv task_id 0)
     (mkRequest None "" (JStr "Ana again") (JStr "ana") JUndefined JUndefined
                None None)].

(** The store after Ana has registered. *)
Definition store_ana : Store := (serve empty_store create_ana).1.

(** The store after Ana has also created two tasks. *)
Definition store_tasks : Store :=
  (serve_all empty_store
     [create_ana; add_task task_id "x"; add_task other_task_id "y"]).1.

(** The store after Ana has created ten tasks on the free plan. *)
Definition store_full : Store :=
  (serve_all empty_store
     (create_ana :: replicate 10 (add_task task_id "x"))).1.

(** The scenario of the specification: Ana registers, creates ten
    tasks, tries an eleventh, upgrades to pro and creates one more. *)
Definition quota_scenario : list Call :=
  [create_ana] ++
  replicate 10 (add_task task_id "x") ++
  [add_task other_task_id "y";
   mkCall PATCH_users_id_pro (mkEnv "" 0) (bare None ana_id);
   add_task other_task_id "y"].

(** [POST /users] with body [{ name: "Bob", username: "bob" }]. *)
Definition create_bob : Call :=
  mkCall POST_users (mkEnv other_task_id 0)
    (mkRequest None "" (JStr "Bob") (JStr "bob") JUndefined JUndefined
               None None).

(** Bob's user object as created. *)
Definition bob : User :=
  mkUser other_task_id (JStr "Bob") (JStr "bob") false [].

(** The store after Ana and Bob have registered and Ana has created a
    task. *)
Definition store_two : Store :=
  (serve_all empty_store [create_ana; create_bob; add_task task_id "x"]).1.

(** [POST /users] with a body that has no [username] field. *)
Definition create_nameless : Call :=
  mkCall POST_users (mkEnv task_id 0)
    (mkRequest None "" (JStr "Nobody") JUndefined JUndefined JUndefined
               None None).

(** The store at the end of the scenario: Ana is pro and holds eleven
    tasks. *)
Definition store_pro : Store := (serve_all empty_store quota_scenario).1.

End Samples.

(** ** Proof automation *)

(** Reading the fields a guard has attached to the request. *)
Ltac read_request :=
  cbn [req_user req_todo attach_user attach_todo headers_username params_id
       body_name body_username body_title body_deadline incoming].

(** One case of a status table: the status is in the row, and it is
    not 500 unless the hypothesis at hand says the conversion throws. *)
Ltac status_case :=
  split; [simpl; set_solver | simpl; first [done | by intros [=]]].

Tactic Notation "read_request" "in" hyp(H) :=
  cbn [req_user req_todo attach_user attach_todo headers_username params_id
       body_name body_username body_title body_deadline incoming] in H.

(** * Properties *)

(** ** Strict equality *)

Lemma compare_key_Eq_sym (ex ey : Z) (mx my : positive) :
  match (ex ?= ey)%Z with
  | Eq => PosDef.Pos.compare_cont Eq mx my
  | c => c
  end = Eq ↔
  match (ey ?= ex)%Z with
  | Eq => PosDef.Pos.compare_cont Eq my mx
  | c => c
  end = Eq.
Proof.
  rewrite (Z.compare_antisym ex ey).
  destruct (ex ?= ey)%Z; simpl; try done.
  change (PosDef.Pos.compare_cont Eq mx my) with (mx ?= my)%positive.
  change (PosDef.Pos.compare_cont Eq my mx) with (my ?= mx)%positive.
  rewrite (Pos.compare_antisym mx my).
  destruct (mx ?= my)%positive; simpl; done.
Qed.

Lemma SFeqb_sym (x y : spec_float) : SFeqb x y = SFeqb y x.
Proof.
  unfold SFeqb, SFcompare.
  destruct x as [sx|sx| |sx mx ex], y as [sy|sy| |sy my ey];
    try reflexivity; try (destruct sx; reflexivity);
    try (destruct sy; reflexivity);
    try (destruct sx, sy; reflexivity).
  pose proof (compare_key_Eq_sym ex ey mx my) as [H1 H2].
  destruct sx, sy; try reflexivity;
    destruct (ex ?= ey)%Z, (ey ?= ex)%Z,
      (PosDef.Pos.compare_cont Eq mx my), (PosDef.Pos.compare_cont Eq my mx);
    simpl in *;
    first [reflexivity | discriminate (H1 eq_refl) | discriminate (H2 eq_refl)].
Qed.

Lemma strict_eq_sym (a b : jsval) : strict_eq a b = strict_eq b a.
Proof.
  destruct a, b; simpl; try reflexivity.
  - destruct b, b0; reflexivity.
  - apply SFeqb_sym.
  - apply String.eqb_sym.
  - apply Pos.eqb_sym.
  - apply Pos.eqb_sym.
Qed.

(** ** Searching arrays *)

Lemma first_match_Some {A : Type} (p : A -> bool) (l : list A) i x :
  first_match p l = Some (i, x) ↔
  l !! i = Some x ∧ p x = true ∧
  ∀ j y, l !! j = Some y → j < i → p y = false.
Proof.
  unfold first_match. rewrite list_find_Some. split.
  - intros (Hl & Hp & Hmin). split; [done|]. split.
    + by apply Is_true_eq_true.
    + intros j y Hj Hlt. specialize (Hmin j y Hj Hlt).
      destruct (p y); [by destruct Hmin|done].
  - intros (Hl & Hp & Hmin). split; [done|]. split.
    + by apply Is_true_eq_left.
    + intros j y Hj Hlt. rewrite (Hmin j y Hj Hlt). by intros [].
Qed.

Lemma first_match_None {A : Type} (p : A -> bool) (l : list A) :
  first_match p l = None ↔ ∀ x, x ∈ l → p x = false.
Proof.
  unfold first_match. rewrite list_find_None, Forall_forall. split.
  - intros H x Hx. specialize (H x Hx). destruct (p x); [by destruct H|done].
  - intros H x Hx. rewrite (H x Hx). by intros [].
Qed.

Lemma indexOf_Some (l : list loc) (x : loc) k :
  indexOf l x = Some k ↔ l !! k = Some x ∧ ∀ j, j < k → l !! j ≠ Some x.
Proof.
  unfold indexOf. split.
  - destruct (list_find _ l) as [[k' y]|] eqn:E; simpl; [|done].
    intros [= <-]. apply list_find_Some in E as (Hl & -> & Hmin).
    split; [done|]. intros j Hj Hx. by apply (Hmin j x Hx Hj).
  - intros [Hl Hmin].
    assert (list_find (λ y, y = x) l = Some (k, x)) as ->; [|done].
    apply list_find_Some. split; [done|]. split; [done|].
    intros j y Hj Hlt ->. by apply (Hmin j Hlt).
Qed.

Lemma indexOf_elem (l : list loc) (x : loc) :
  x ∈ l → is_Some (indexOf l x).
Proof.
  intros Hx. unfold indexOf.
  destruct (list_find (λ y, y = x) l) as [r|] eqn:E; [by eexists|].
  apply list_find_None in E. rewrite Forall_forall in E.
  by destruct (E x Hx).
Qed.

(** In an array without repeated references, [indexOf] returns the
    position the reference was read from. *)
Lemma indexOf_NoDup (l : list loc) (x : loc) k :
  NoDup l → l !! k = Some x → indexOf l x = Some k.
Proof.
  intros Hnd Hk. apply indexOf_Some. split; [done|].
  intros j Hj Hx. pose proof (NoDup_lookup l j k x Hnd Hx Hk). lia.
Qed.

(** ** Looking up the account of a request *)

Lemma account_found st username i user :
  first_match (λ user, strict_eq (u_username user) username) (users st)
    = Some (i, user) ↔ is_account st username i user.
Proof.
  exact (first_match_Some
           (λ user, strict_eq (u_username user) username) (users st) i user).
Qed.

Lemma account_missing st username :
  first_match (λ user, strict_eq (u_username user) username) (users st) = None
  ↔ no_account st username.
Proof.
  exact (first_match_None
           (λ user, strict_eq (u_username user) username) (users st)).
Qed.

Lemma is_account_user_at st username i user :
  is_account st username i user → user_at st i = user.
Proof.
  intros (Hl & _). unfold user_at. by apply list_lookup_total_correct.
Qed.

(** Either no user has the username or there is a first one that has
    it: the two cases the guards distinguish cover every store. *)
Lemma account_cases st username :
  no_account st username ∨ ∃ i user, is_account st username i user.
Proof.
  destruct (first_match (λ user, strict_eq (u_username user) username)
                        (users st)) as [[i user]|] eqn:E.
  - right. exists i, user. by apply account_found.
  - left. by apply account_missing.
Qed.

(** ** The loop of [checksTodoExists] *)

Lemma attach_again i l i' l' r :
  attach_todo l (attach_user i (attach_todo l' (attach_user i' r)))
  = attach_todo l (attach_user i r).
Proof. reflexivity. Qed.

(** The loop leaves the request alone when no task has the id, and
    otherwise attaches the account and the last task that has it. *)
Lemma attach_matching_cases st i id todos r :
  (Forall (λ l, String.eqb (t_id (todo_at st l)) id = false) todos ∧
   attach_matching st i id todos r = r) ∨
  (∃ before l after,
     todos = before ++ l :: after ∧
     t_id (todo_at st l) = id ∧
     Forall (λ l', String.eqb (t_id (todo_at st l')) id = false) after ∧
     attach_matching st i id todos r = attach_todo l (attach_user i r)).
Proof.
  unfold attach_matching.
  induction todos as [|x todos IH] using rev_ind.
  - left. split; [constructor|reflexivity].
  - rewrite fold_left_app. simpl.
    destruct (String.eqb (t_id (todo_at st x)) id) eqn:Ex.
    + right. exists todos, x, []. split; [done|].
      split; [by apply String.eqb_eq|]. split; [constructor|].
      destruct IH as [[_ ->]|(b & l & a & _ & _ & _ & ->)];
        [reflexivity|apply attach_again].
    + destruct IH as [[Hall ->]|(b & l & a & -> & Hid & Hall & ->)].
      * left. split; [|reflexivity].
        apply Forall_app. split; [done|]. by constructor.
      * right. exists b, l, (a ++ [x]).
        split; [by rewrite <- app_assoc|]. split; [done|].
        split; [|reflexivity].
        apply Forall_app. split; [done|]. by constructor.
Qed.

Lemma existsb_false_Forall {A : Type} (p : A -> bool) (l : list A) :
  existsb p l = false ↔ Forall (λ x, p x = false) l.
Proof.
  induction l as [|x l IH]; simpl.
  - split; [constructor|done].
  - rewrite orb_false_iff, IH. split.
    + intros [? ?]. by constructor.
    + by inversion 1.
Qed.

Lemma attach_matching_found st i id todos r :
  existsb (λ l, String.eqb (t_id (todo_at st l)) id) todos = true →
  ∃ before l after,
    todos = before ++ l :: after ∧
    t_id (todo_at st l) = id ∧
    Forall (λ l', String.eqb (t_id (todo_at st l')) id = false) after ∧
    attach_matching st i id todos r = attach_todo l (attach_user i r).
Proof.
  intros Hex.
  destruct (attach_matching_cases st i id todos r) as [[Hall _]|H]; [|done].
  apply existsb_false_Forall in Hall. congruence.
Qed.

(** ** [validate] and version-4 UUIDs *)

Lemma matches_weaken (cs ds : list (ascii -> bool)) (s : string) :
  Forall2 (λ c d, ∀ a, c a = true → d a = true) cs ds →
  matches cs s = true → matches ds s = true.
Proof.
  intros H. revert s. induction H as [|c d cs ds Hcd _ IH]; intros s.
  - done.
  - destruct s as [|a s]; simpl; [done|].
    rewrite !andb_true_iff. intros [? ?]. split; [by apply Hcd|by apply IH].
Qed.

Lemma version_4_is_1_5 a : version_4 a = true → version_1_5 a = true.
Proof.
  unfold version_4. intros ->%Ascii.eqb_eq. reflexivity.
Qed.

(** Every version-4 UUID passes [validate]. *)
Lemma validate_v4 (s : string) : is_uuid_v4 s = true → validate s = true.
Proof.
  unfold is_uuid_v4, validate, REGEX_test. intros H.
  apply orb_true_iff. left. revert H. apply matches_weaken.
  unfold layout. simpl.
  repeat (constructor; [first [exact version_4_is_1_5 | done]|]).
  constructor.
Qed.

Example validate_accepts_v1 : validate Samples.v1_id = true.
Proof. reflexivity. Qed.

Example v1_is_not_v4 : is_uuid_v4 Samples.v1_id = false.
Proof. reflexivity. Qed.

Example validate_rejects_text : validate "not-a-uuid" = false.
Proof. reflexivity. Qed.

Example task_id_is_v4 : is_uuid_v4 Samples.task_id = true.
Proof. reflexivity. Qed.

Example store_tasks_users :
  users Samples.store_tasks =
  [mkUser Samples.ana_id (JStr "Ana") (JStr "ana") false [1%positive; 2%positive]].
Proof. vm_compute. reflexivity. Qed.

Example store_tasks_first_task :
  todo_at Samples.store_tasks 1%positive =
  mkTodo Samples.task_id (JStr "x") (DateOf (JStr "2030-01-01")) false
         (DateNow 1000).
Proof. vm_compute. reflexivity. Qed.

(** ** The guard [checksTodoExists] *)

(** C1, at an input where the code departs from it: an id that is a
    well-formed UUID of version 1 is not a version-4 UUID, yet
    [checksTodoExists] does not answer 400 "Id is not uuid".  It goes on
    to the user lookup and answers 404 "User not found" on the empty
    store, and 404 "Todo not found" when the user exists; the same holds
    through the route [PUT /todos/:id]. *)
Theorem checksTodoExists_passes_version_1_id :
  let request := Samples.bare (Some "ana") Samples.v1_id in
  is_uuid_v4 (params_id request) = false ∧
  checksTodoExists empty_store request
    = Send (error_response 404 "User not found") ∧
  checksTodoExists Samples.store_ana request
    = Send (error_response 404 "Todo not found") ∧
  (app PUT_todos_id (mkEnv "" 0) Samples.store_ana request).2
    = error_response 404 "Todo not found".
Proof. vm_compute. repeat split; reflexivity. Qed.


(** The four outcomes on a store where Ana owns two tasks; the format
    test comes first even when the user is unknown. *)
Example checksTodoExists_outcomes :
  checksTodoExists Samples.store_tasks (Samples.bare (Some "bob") "not-a-uuid")
    = Send (error_response 400 "Id is not uuid") ∧
  checksTodoExists Samples.store_tasks (Samples.bare (Some "bob") Samples.task_id)
    = Send (error_response 404 "User not found") ∧
  checksTodoExists Samples.store_tasks (Samples.bare (Some "ana") Samples.ana_id)
    = Send (error_response 404 "Todo not found") ∧
  checksTodoExists Samples.store_tasks
      (Samples.bare (Some "ana") Samples.other_task_id)
    = Next (attach_todo 2%positive
              (attach_user 0
                 (Samples.bare (Some "ana") Samples.other_task_id))).
Proof. vm_compute. repeat split; reflexivity. Qed.

(** ** Creating tasks: the free-plan quota *)

Lemma user_at_insert st i u us' :
  i < length (users st) →
  us' = <[i := u]> (users st) →
  user_at (with_users us' st) i = u.
Proof.
  intros Hi ->. unfold user_at. simpl.
  apply list_lookup_total_correct. by apply list_lookup_insert_eq.
Qed.

Lemma todo_at_insert (h : gmap loc Todo) us l t :
  todo_at (mkStore us (<[l := t]> h)) l = t.
Proof. unfold todo_at. simpl. by rewrite lookup_total_insert_eq. Qed.

(** What [POST /todos] answers once the account is found, by the
    three things it depends on: the quota test, and whether
    [new Date(deadline)] throws. *)
Lemma post_todos_result (env : Env) (st : Store) (request : Request)
    (i : nat) (user : User) :
  is_account st (header_value (headers_username request)) i user →
  let created :=
    mkTodo (uuidv4 env) (body_title request) (DateOf (body_deadline request))
           false (DateNow (now env)) in
  let l := fresh (dom (heap st)) in
  app POST_todos env st request =
  if (length (u_todos user) <? 10)%nat || u_pro user
  then if to_primitive_throws (body_deadline request)
       then (st, uncaught)
       else (mkStore (<[i := set_todos (u_todos user ++ [l]) user]> (users st))
                     (<[l := created]> (heap st)),
             mkResponse 201 (PTodo created))
  else (st, error_response 403 "User is not PRO").
Proof.
  intros Hacc created l.
  pose proof (is_account_user_at _ _ _ _ Hacc) as Hat.
  apply account_found in Hacc.
  unfold app, pipeline, checksExistsUserAccount.
  rewrite Hacc. unfold checksCreateTodosUserAvailability.
  read_request. rewrite Hat.
  destruct ((length (u_todos user) <? 10)%nat || u_pro user); [|reflexivity].
  unfold post_todos, new_Date. read_request.
  destruct (to_primitive_throws (body_deadline request)); [reflexivity|].
  rewrite Hat. f_equal. f_equal. f_equal. apply todo_at_insert.
Qed.

(** C3, as the code has it: [POST /todos] for a request whose
    [username] header names the account [user].  A user on the free
    plan with 10 tasks or more is answered 403 "User is not PRO" and the
    store stays as it was.  A user on the free plan with fewer than 10
    tasks, and a pro user whatever the number of tasks, gets the task
    created, 201 with the new task appended to the user's array,
    provided [new Date(deadline)] does not throw; when it throws, the
    answer is 500 and nothing is created. *)
Theorem post_todos_quota (env : Env) (st : Store) (request : Request)
    (i : nat) (user : User) :
  is_account st (header_value (headers_username request)) i user →
  let result := app POST_todos env st request in
  let created :=
    mkTodo (uuidv4 env) (body_title request) (DateOf (body_deadline request))
           false (DateNow (now env)) in
  let l := fresh (dom (heap st)) in
  let accepted :=
    users result.1
    = <[i := mkUser (u_id user) (u_name user) (u_username user) (u_pro user)
                    (u_todos user ++ [l])]> (users st) ∧
    heap result.1 = <[l := created]> (heap st) ∧
    result.2 = mkResponse 201 (PTodo created) in
  let throws := to_primitive_throws (body_deadline request) in
  (u_pro user = false → (length (u_todos user) < 10)%nat →
   throws = false → accepted) ∧
  (u_pro user = false → (10 ≤ length (u_todos user))%nat →
   result = (st, error_response 403 "User is not PRO")) ∧
  (u_pro user = true → throws = false → accepted) ∧
  (throws = true →
   u_pro user = true ∨ (length (u_todos user) < 10)%nat →
   result = (st, mkResponse 500 PException)).
Proof.
  intros Hacc result created l accepted throws.
  unfold accepted, result, throws.
  rewrite (post_todos_result env st request i user Hacc).
  split; [|split; [|split]].
  - intros _ Hlt ->. apply Nat.ltb_lt in Hlt. rewrite Hlt. simpl.
    repeat split.
  - intros -> Hge. apply Nat.ltb_ge in Hge. by rewrite Hge.
  - intros Hpro ->.
    replace ((length (u_todos user) <? 10)%nat || u_pro user) with true
      by (by rewrite Hpro, orb_true_r).
    simpl. repeat split.
  - intros -> [->|Hlt].
    + by rewrite orb_true_r.
    + apply Nat.ltb_lt in Hlt. by rewrite Hlt.
Qed.

(** C3 as stated fails: Ana is on the free plan and holds no task, yet
    her [POST /todos] with the body
    [{ "deadline": { "toString": 1, "valueOf": 1 } }] is answered 500,
    not 201, and creates nothing. *)
Lemma post_todos_quota_counterexample :
  let request :=
    mkRequest (Some "ana") "" JUndefined JUndefined (JStr "x")
              Samples.unconvertible None None in
  is_account Samples.store_ana (header_value (headers_username request)) 0
             (mkUser Samples.ana_id (JStr "Ana") (JStr "ana") false []) ∧
  app POST_todos (mkEnv Samples.task_id 7) Samples.store_ana request
  = (Samples.store_ana, mkResponse 500 PException) ∧
  status (app POST_todos (mkEnv Samples.task_id 7) Samples.store_ana request).2
  ≠ 201.
Proof.
  intros request. split; [|split].
  - split; [reflexivity|]. split; [reflexivity|]. intros j u _ Hj. lia.
  - vm_compute. reflexivity.
  - vm_compute. discriminate.
Qed.

(** A request the quota lets through on the free plan, one it stops
    at ten tasks, one it lets through for a pro user with eleven, and
    one whose deadline makes [new Date] throw. *)
Lemma post_todos_quota_witness :
  let env := mkEnv Samples.task_id 7 in
  let request := Samples.bare (Some "ana") "" in
  let thrower :=
    mkRequest (Some "ana") "" JUndefined JUndefined (JStr "x")
              Samples.unconvertible None None in
  (app POST_todos env Samples.store_ana request).2
  = mkResponse 201
      (PTodo (mkTodo Samples.task_id JUndefined (DateOf JUndefined) false
                     (DateNow 7))) ∧
  app POST_todos env Samples.store_full request
  = (Samples.store_full, error_response 403 "User is not PRO") ∧
  (app POST_todos env Samples.store_pro request).2
  = mkResponse 201
      (PTodo (mkTodo Samples.task_id JUndefined (DateOf JUndefined) false
                     (DateNow 7))) ∧
  app POST_todos env Samples.store_pro thrower
  = (Samples.store_pro, mkResponse 500 PException).
Proof.
  intros env request thrower.
  assert (∀ st, length (users st) = 1%nat →
                u_username (user_at st 0) = JStr "ana" →
                is_account st (header_value (Some "ana")) 0
                           (user_at st 0)) as Hana.
  { intros st Hlen Hname. split; [|split].
    - unfold user_at. apply list_lookup_lookup_total_lt. lia.
    - by rewrite Hname.
    - intros j u _ Hj. lia. }
  split; [|split; [|split]].
  - pose proof (post_todos_quota env Samples.store_ana request 0 _
                  (Hana Samples.store_ana eq_refl eq_refl)) as Hq.
    cbv zeta in Hq. destruct Hq as (Hfree & _ & _ & _).
    apply Hfree; [reflexivity|cbn; lia|reflexivity].
  - pose proof (post_todos_quota env Samples.store_full request 0 _
                  (Hana Samples.store_full eq_refl eq_refl)) as Hq.
    cbv zeta in Hq. destruct Hq as (_ & Hfull & _ & _).
    apply Hfull; [vm_compute; reflexivity|vm_compute; lia].
  - pose proof (post_todos_quota env Samples.store_pro request 0 _
                  (Hana Samples.store_pro eq_refl eq_refl)) as Hq.
    cbv zeta in Hq. destruct Hq as (_ & _ & Hpro & _).
    apply Hpro; [vm_compute; reflexivity|reflexivity].
  - pose proof (post_todos_quota env Samples.store_pro thrower 0 _
                  (Hana Samples.store_pro eq_refl eq_refl)) as Hq.
    cbv zeta in Hq. destruct Hq as (_ & _ & _ & Hthrow).
    apply Hthrow; [reflexivity|left; vm_compute; reflexivity].
Defined.

(** ** Creating users *)

Lemma same_value_primitive (a b : jsval) :
  is_primitive b = true → same_value a b = strict_eq a b.
Proof. destruct a, b; simpl; done. Qed.

Lemma same_value_of_primitive (a b : jsval) :
  is_primitive a = true → same_value a b = strict_eq a b.
Proof. destruct a, b; simpl; done. Qed.

(** C4, as the code has it: [POST /users] compares usernames with
    [===].  When a user of the store has a username that is [===] to the
    requested one, the answer is 400 "Username already exists" and the
    store is unchanged, whatever the [name] field holds; otherwise a
    user with the generated id, the given name and username,
    [pro = false] and no tasks is appended to [users], nothing else
    changes, and that user is returned with 201.  For a requested
    username that is a string, a number, a boolean, [null] or absent,
    [===] is equality of value, so the request is refused exactly when
    a user holds the same username.  An array or an object is compared
    by reference: a user holding an equal one does not make the request
    fail. *)
Theorem post_users_spec (env : Env) (st : Store) (request : Request) :
  let username := body_username request in
  let result := app POST_users env st request in
  let refused := result = (st, error_response 400 "Username already exists") in
  let appended :=
    users result.1
    = users st ++ [mkUser (uuidv4 env) (body_name request) username false []] ∧
    heap result.1 = heap st ∧
    result.2
    = mkResponse 201
        (PUser (mkUserJSON (uuidv4 env) (body_name request) username
                           false [])) in
  ((∃ user, user ∈ users st ∧ strict_eq (u_username user) username = true) →
   refused) ∧
  (no_account st username → appended) ∧
  (is_primitive username = true →
   (∃ user, user ∈ users st ∧ same_value (u_username user) username = true) →
   refused) ∧
  (is_primitive username = true →
   (∀ user, user ∈ users st → same_value (u_username user) username = false) →
   appended).
Proof.
  intros username result refused appended.
  assert ((∃ user, user ∈ users st ∧
                   strict_eq (u_username user) username = true) → refused)
    as Hrefused.
  { intros (user & Hin & Heq).
    unfold refused, result, app, pipeline, post_users. fold username.
    assert (existsb (λ user, strict_eq (u_username user) username) (users st)
            = true) as ->; [|reflexivity].
    apply existsb_exists. exists user. split; [|done].
    by apply list_elem_of_In. }
  assert (no_account st username → appended) as Happended.
  { intros Hno.
    unfold appended, result, app, pipeline, post_users. fold username.
    assert (existsb (λ user, strict_eq (u_username user) username) (users st)
            = false) as ->; [|done].
    apply existsb_false_Forall, Forall_forall. exact Hno. }
  split; [done|]. split; [done|]. split.
  - intros Hprim (user & Hin & Heq). apply Hrefused. exists user.
    split; [done|]. by rewrite <- (same_value_primitive _ _ Hprim).
  - intros Hprim Hnone. apply Happended. intros user Hin.
    rewrite <- (same_value_primitive _ _ Hprim). by apply Hnone.
Qed.

(** C4 as stated fails: a user whose username is the object [{}] is in
    the store, and a second [POST /users] with the username [{}] is
    answered 201, not 400, and appends a second user. *)
Lemma post_users_spec_counterexample :
  let st :=
    (serve empty_store (Samples.create_with_object 1 Samples.ana_id)).1 in
  let second := Samples.create_with_object 2 Samples.task_id in
  (∃ user, user ∈ users st ∧
           same_value (u_username user) (body_username (call_request second))
           = true) ∧
  status (serve st second).2 = 201 ∧
  usernames (serve st second).1 = [JObj 1 []; JObj 2 []].
Proof.
  intros st second. split; [|split].
  - exists (mkUser Samples.ana_id JUndefined (JObj 1 []) false []).
    split; [|reflexivity]. apply list_elem_of_singleton. reflexivity.
  - reflexivity.
  - reflexivity.
Qed.

(** Ana's username a second time, and Bob's for the first time. *)
Lemma post_users_spec_witness :
  app POST_users (mkEnv Samples.task_id 0) Samples.store_ana
      (mkRequest None "" (JStr "Ana again") (JStr "ana") JUndefined JUndefined
                 None None)
  = (Samples.store_ana, error_response 400 "Username already exists") ∧
  users (app POST_users (mkEnv Samples.other_task_id 0) Samples.store_ana
             (mkRequest None "" (JStr "Bob") (JStr "bob") JUndefined
                        JUndefined None None)).1
  = users Samples.store_ana ++ [Samples.bob].
Proof.
  split.
  - pose proof (post_users_spec (mkEnv Samples.task_id 0) Samples.store_ana
                  (mkRequest None "" (JStr "Ana again") (JStr "ana")
                             JUndefined JUndefined None None)) as H.
    cbv zeta in H. destruct H as (_ & _ & Hrefused & _).
    apply Hrefused; [reflexivity|].
    exists (mkUser Samples.ana_id (JStr "Ana") (JStr "ana") false []).
    split; [|reflexivity]. apply list_elem_of_singleton. reflexivity.
  - pose proof (post_users_spec (mkEnv Samples.other_task_id 0)
                  Samples.store_ana
                  (mkRequest None "" (JStr "Bob") (JStr "bob") JUndefined
                             JUndefined None None)) as H.
    cbv zeta in H. destruct H as (_ & _ & _ & Happended).
    apply Happended; [reflexivity|].
    intros user Hin. apply list_elem_of_singleton in Hin. by subst user.
Defined.

(** Ana and Bob are registered with 201; the second request for the
    username of Ana is answered 400 although its [name] differs. *)
Example registrations_run :
  let result := serve_all empty_store Samples.registrations in
  status <$> result.2 = [201; 201; 400] ∧
  usernames result.1 = [JStr "ana"; JStr "bob"].
Proof. vm_compute. split; reflexivity. Qed.

(** ** Upgrading to the pro plan *)

Lemma user_by_id_found st id i user :
  first_match (λ account, String.eqb (u_id account) id) (users st)
    = Some (i, user) ↔ is_user_by_id st id i user.
Proof.
  exact (first_match_Some (λ account, String.eqb (u_id account) id)
                          (users st) i user).
Qed.

(** C5: [PATCH /users/:id/pro] on an existing user.  If the user is
    already pro the answer is 400 "Pro plan is already activated." and
    the store, that user included, is unchanged.  Otherwise the user's
    [pro] flag becomes true, nothing else changes, and the updated user
    is returned with 200. *)
Theorem patch_user_pro_spec (env : Env) (st : Store) (request : Request)
    (i : nat) (user : User) :
  is_user_by_id st (params_id request) i user →
  let result := app PATCH_users_id_pro env st request in
  (u_pro user = true →
   result = (st, error_response 400 "Pro plan is already activated.")) ∧
  (u_pro user = false →
   result =
   (with_users (<[i := set_pro true user]> (users st)) st,
    mkResponse 200
      (PUser (mkUserJSON (u_id user) (u_name user) (u_username user) true
                         (todos_of st user))))).
Proof.
  intros Hid result.
  assert (user_at st i = user) as Hat.
  { destruct Hid as (Hl & _). unfold user_at.
    by apply list_lookup_total_correct. }
  assert (i < length (users st)) as Hlen.
  { destruct Hid as (Hl & _). by apply lookup_lt_Some in Hl. }
  apply user_by_id_found in Hid.
  unfold result, app, pipeline, findUserById. rewrite Hid.
  unfold patch_user_pro. read_request. rewrite Hat. split.
  - intros ->. reflexivity.
  - intros Hpro. rewrite Hpro. f_equal. f_equal. f_equal.
    rewrite (user_at_insert st i (set_pro true user) _ Hlen eq_refl).
    reflexivity.
Qed.

Lemma patch_user_pro_spec_witness :
  let env := mkEnv "" 0 in
  let request := Samples.bare None Samples.ana_id in
  (app PATCH_users_id_pro env Samples.store_ana request).2
  = mkResponse 200
      (PUser (mkUserJSON Samples.ana_id (JStr "Ana") (JStr "ana") true [])) ∧
  app PATCH_users_id_pro env Samples.store_pro request
  = (Samples.store_pro, error_response 400 "Pro plan is already activated.").
Proof.
  intros env request.
  assert (∀ st, length (users st) = 1%nat →
                u_id (user_at st 0) = Samples.ana_id →
                is_user_by_id st (params_id request) 0 (user_at st 0)) as Hana.
  { intros st Hlen Hid. split; [|split].
    - unfold user_at. apply list_lookup_lookup_total_lt. lia.
    - by rewrite Hid.
    - intros j u _ Hj. lia. }
  split.
  - pose proof (patch_user_pro_spec env Samples.store_ana request 0 _
                  (Hana Samples.store_ana eq_refl eq_refl)) as Hp.
    cbv zeta in Hp. destruct Hp as (_ & Hfree).
    rewrite Hfree; reflexivity.
  - pose proof (patch_user_pro_spec env Samples.store_pro request 0 _
                  (Hana Samples.store_pro eq_refl eq_refl)) as Hp.
    cbv zeta in Hp. destruct Hp as (Hpro & _).
    apply Hpro. reflexivity.
Defined.

(** ** Relating the store before and after a request *)

Section Pipeline.

Variable R : Store → Store → Prop.
Hypothesis R_refl : ∀ st, R st st.

(** The middlewares never write to the store, so whatever relation
    a handler establishes between the store it starts from and the
    store it leaves, the whole route establishes. *)
Lemma pipeline_related (guards : list Middleware) (handler : Handler) :
  (∀ env st r, R st (handler env st r).1) →
  ∀ env st r, R st (pipeline guards handler env st r).1.
Proof.
  intros Hh env st. induction guards as [|g guards IH]; intros r; simpl.
  - apply Hh.
  - destruct (g st r) as [r'|res]; [apply IH|apply R_refl].
Qed.

Lemma app_related :
  (∀ env st r, R st (post_users env st r).1) →
  (∀ env st r, R st (patch_user_pro env st r).1) →
  (∀ env st r, R st (post_todos env st r).1) →
  (∀ env st r, R st (put_todo env st r).1) →
  (∀ env st r, R st (patch_todo_done env st r).1) →
  (∀ env st r, R st (delete_todo env st r).1) →
  ∀ route env st r, R st (app route env st r).1.
Proof.
  intros H1 H2 H3 H4 H5 H6 route.
  destruct route; unfold app; apply pipeline_related; try assumption.
  - intros env st r. unfold get_user. destruct (req_user r); apply R_refl.
  - intros env st r. unfold get_todos. destruct (req_user r); apply R_refl.
Qed.

End Pipeline.

Lemma reachable_serve_all (st : Store) (cs : list Call) :
  reachable st → reachable (serve_all st cs).1.
Proof.
  revert st. induction cs as [|c cs IH]; intros st Hst; simpl; [done|].
  destruct (serve st c) as [st1 res] eqn:E1.
  specialize (IH st1).
  destruct (serve_all st1 cs) as [st2 ress]. simpl in *. apply IH.
  replace st1 with (serve st c).1 by (by rewrite E1).
  by constructor.
Qed.

(** ** The usernames in the store *)

Lemma usernames_insert (us : list User) (i : nat) (u' : User) :
  u_username u' = u_username (us !!! i) →
  u_username <$> <[i := u']> us = u_username <$> us.
Proof.
  intros Hu. rewrite list_fmap_insert. apply list_insert_id'.
  rewrite length_fmap. intros Hi. rewrite list_lookup_fmap.
  rewrite (list_lookup_lookup_total_lt us i Hi). simpl. by rewrite Hu.
Qed.

Lemma serve_usernames_step (st : Store) (c : Call) :
  usernames_step st (serve st c).1.
Proof.
  unfold serve. apply app_related; clear.
  - intros st. by apply usernames_kept.
  - intros env st r. unfold post_users.
    destruct (existsb _ (users st)) eqn:E; simpl.
    + by apply usernames_kept.
    + apply usernames_added with (body_username r).
      * unfold usernames. simpl. by rewrite fmap_app.
      * intros u Hu. apply existsb_false_Forall in E.
        rewrite Forall_forall in E. by apply E.
  - intros env st r. unfold patch_user_pro.
    destruct (req_user r) as [i|]; [|by apply usernames_kept].
    destruct (u_pro (user_at st i)); [by apply usernames_kept|].
    apply usernames_kept. unfold usernames. simpl.
    by apply usernames_insert.
  - intros env st r. unfold post_todos.
    destruct (new_Date (body_deadline r)); [|by apply usernames_kept].
    destruct (req_user r) as [i|]; [|by apply usernames_kept].
    apply usernames_kept. unfold usernames. simpl.
    by apply usernames_insert.
  - intros env st r. unfold put_todo.
    destruct (req_todo r); [|by apply usernames_kept].
    destruct (new_Date (body_deadline r)); by apply usernames_kept.
  - intros env st r. unfold patch_todo_done.
    destruct (req_todo r); by apply usernames_kept.
  - intros env st r. unfold delete_todo.
    destruct (req_user r) as [i|]; [|by apply usernames_kept].
    destruct (match req_todo r with Some l => _ | None => _ end);
      [|by apply usernames_kept].
    apply usernames_kept. unfold usernames. simpl.
    by apply usernames_insert.
Qed.

Lemma distinct_snoc (vs : list jsval) (v : jsval) :
  distinct vs → (∀ a, a ∈ vs → strict_eq a v = false) → distinct (vs ++ [v]).
Proof.
  intros Hd Hv i j a b Hi Hj Hne.
  apply lookup_snoc_Some in Hi as [[Hi Ha]|[-> <-]];
    apply lookup_snoc_Some in Hj as [[Hj Hb]|[-> <-]].
  - by apply (Hd i j).
  - apply Hv. apply list_elem_of_lookup. by exists i.
  - rewrite strict_eq_sym. apply Hv. apply list_elem_of_lookup. by exists j.
  - done.
Qed.

Lemma usernames_step_distinct (st st' : Store) :
  usernames_step st st' → distinct (usernames st) → distinct (usernames st').
Proof.
  intros [Heq|v Heq Hno] Hd; rewrite Heq; [done|].
  apply distinct_snoc; [done|].
  intros a (u & -> & Hu)%list_elem_of_fmap. by apply Hno.
Qed.

Lemma reachable_distinct (st : Store) :
  reachable st → distinct (usernames st).
Proof.
  induction 1 as [|st c _ IH].
  - intros i j a b Hi. done.
  - eapply usernames_step_distinct; [apply serve_usernames_step|done].
Qed.

(** C7, as the code has it: starting from the empty store, after any
    sequence of requests to the eight routes, no two users of the store
    have usernames that are [===]; when one of the two usernames is a
    string, a number, a boolean, [null] or absent, the two do not hold
    the same value either.  Two users can hold equal arrays or equal
    objects as usernames. *)
Theorem username_uniqueness (cs : list Call) :
  let st := (serve_all empty_store cs).1 in
  ∀ i j u v,
    users st !! i = Some u → users st !! j = Some v → i ≠ j →
    strict_eq (u_username u) (u_username v) = false ∧
    (is_primitive (u_username u) = true ∨ is_primitive (u_username v) = true →
     same_value (u_username u) (u_username v) = false).
Proof.
  intros st i j u v Hi Hj Hne.
  assert (distinct (usernames st)) as Hd.
  { apply reachable_distinct, reachable_serve_all. constructor. }
  assert (strict_eq (u_username u) (u_username v) = false) as Hstrict.
  { apply (Hd i j); [| |done]; unfold usernames; rewrite list_lookup_fmap.
    - by rewrite Hi.
    - by rewrite Hj. }
  split; [done|]. intros [Hprim|Hprim].
  - by rewrite (same_value_of_primitive _ _ Hprim).
  - by rewrite (same_value_primitive _ _ Hprim).
Qed.

(** C7 as stated fails: two [POST /users] requests whose username is
    the object [{}] are both answered 201, and the store then holds two
    users with the same username [{}]. *)
Lemma username_uniqueness_counterexample :
  let run :=
    serve_all empty_store
      [Samples.create_with_object 1 Samples.ana_id;
       Samples.create_with_object 2 Samples.task_id] in
  status <$> run.2 = [201; 201] ∧
  usernames run.1 = [JObj 1 []; JObj 2 []] ∧
  same_value (JObj 1 []) (JObj 2 []) = true.
Proof. vm_compute. repeat split; reflexivity. Qed.

Lemma username_uniqueness_witness :
  let st := (serve_all empty_store Samples.registrations).1 in
  length (users st) = 2 ∧
  strict_eq (u_username (users st !!! 0%nat)) (u_username (users st !!! 1%nat))
  = false ∧
  same_value (u_username (users st !!! 0%nat)) (u_username (users st !!! 1%nat))
  = false.
Proof.
  intros st. split; [reflexivity|].
  destruct (username_uniqueness Samples.registrations 0 1
              (users st !!! 0%nat) (users st !!! 1%nat)) as [Hstrict Hvalue];
    [reflexivity|reflexivity|lia|].
  split; [exact Hstrict|]. apply Hvalue. left. reflexivity.
Defined.

(** ** The ownership invariant *)

Lemma owned_mono (h h' : gmap loc Todo) (u : User) :
  dom h ⊆ dom h' → owned h u → owned h' u.
Proof. intros Hsub [Hnd Hin]. split; [done|]. intros l Hl. auto. Qed.

Lemma owned_user_at (st : Store) (i : nat) :
  todos_owned st → owned (heap st) (user_at st i).
Proof.
  intros Hst. unfold user_at. rewrite list_lookup_total_alt.
  destruct (users st !! i) as [u|] eqn:E; simpl.
  - unfold todos_owned in Hst. rewrite Forall_lookup in Hst. by apply (Hst i).
  - split; [constructor|]. intros l Hl. by apply elem_of_nil in Hl.
Qed.

Lemma owned_insert_heap (st : Store) (l : loc) (t : Todo) :
  todos_owned st →
  Forall (owned (<[l := t]> (heap st))) (users st).
Proof.
  intros Hst. eapply Forall_impl; [exact Hst|].
  intros u. apply owned_mono. rewrite dom_insert_L. set_solver.
Qed.

Lemma serve_todos_owned (st : Store) (c : Call) :
  todos_owned st → todos_owned (serve st c).1.
Proof.
  unfold serve.
  apply (app_related (λ st st', todos_owned st → todos_owned st')); clear.
  - done.
  - intros env st r Hst. unfold post_users.
    destruct (existsb _ (users st)); simpl; [done|].
    apply Forall_app. split; [done|].
    constructor; [|constructor]. split; [constructor|].
    intros l Hl. by apply elem_of_nil in Hl.
  - intros env st r Hst. unfold patch_user_pro.
    destruct (req_user r) as [i|]; [|done].
    destruct (u_pro (user_at st i)); [done|].
    apply Forall_insert; [done|]. by apply (owned_user_at st i).
  - intros env st r Hst. unfold post_todos.
    destruct (new_Date (body_deadline r)); [|done].
    destruct (req_user r) as [i|]; [|done].
    unfold todos_owned. simpl.
    apply Forall_insert; [by apply owned_insert_heap|].
    destruct (owned_user_at st i Hst) as [Hnd Hin]. split; simpl.
    + apply NoDup_app. split; [done|]. split; [|apply NoDup_singleton].
      intros l Hl ->%list_elem_of_singleton.
      by apply (is_fresh (dom (heap st))), Hin.
    + intros l [Hl| ->%list_elem_of_singleton]%elem_of_app;
        rewrite dom_insert_L; set_solver.
  - intros env st r Hst. unfold put_todo.
    destruct (req_todo r) as [l|]; [|done].
    destruct (new_Date (body_deadline r)); unfold todos_owned; simpl;
      (eapply Forall_impl; [exact Hst|]);
      intros u; apply owned_mono; rewrite !dom_insert_L; set_solver.
  - intros env st r Hst. unfold patch_todo_done.
    destruct (req_todo r) as [l|]; [|done].
    unfold todos_owned. simpl. by apply owned_insert_heap.
  - intros env st r Hst. unfold delete_todo.
    destruct (req_user r) as [i|]; [|done].
    destruct (match req_todo r with Some l => _ | None => _ end) as [k|];
      [|done].
    apply Forall_insert; [done|].
    destruct (owned_user_at st i Hst) as [Hnd Hin]. split; simpl.
    + eapply sublist_NoDup; [done|apply sublist_delete].
    + intros l Hl. apply Hin.
      eapply elem_of_sublist; [done|apply sublist_delete].
Qed.

Lemma reachable_todos_owned (st : Store) : reachable st → todos_owned st.
Proof.
  induction 1 as [|st c _ IH]; [constructor|by apply serve_todos_owned].
Qed.

(** ** When the guards let a request through *)

Lemma checksExistsUserAccount_Next st request r :
  checksExistsUserAccount st request = Next r →
  ∃ i user,
    is_account st (header_value (headers_username request)) i user ∧
    r = attach_user i request.
Proof.
  unfold checksExistsUserAccount.
  destruct (first_match _ (users st)) as [[i user]|] eqn:E; [|done].
  intros [= <-]. exists i, user. split; [|done]. by apply account_found.
Qed.

Lemma checksTodoExists_Next st request r :
  checksTodoExists st request = Next r →
  validate (params_id request) = true ∧
  ∃ i account before l after,
    is_account st (header_value (headers_username request)) i account ∧
    u_todos account = before ++ l :: after ∧
    t_id (todo_at st l) = params_id request ∧
    Forall (λ l', String.eqb (t_id (todo_at st l')) (params_id request) = false)
           after ∧
    r = attach_todo l (attach_user i request).
Proof.
  unfold checksTodoExists.
  destruct (validate (params_id request)); simpl; [|done].
  destruct (first_match _ (users st)) as [[i account]|] eqn:E; [|done].
  destruct (existsb _ (u_todos account)) eqn:Ex; [|done].
  intros [= <-]. split; [done|].
  destruct (attach_matching_found st i (params_id request) (u_todos account)
              request Ex) as (b & l & a & Htodos & Hid & Hafter & ->).
  exists i, account, b, l, a. split; [by apply account_found|done].
Qed.

Lemma checksTodoExists_cases st request :
  (∃ msg code, (code = 400 ∨ code = 404) ∧
     checksTodoExists st request = Send (error_response code msg)) ∨
  ∃ i account l,
    is_account st (header_value (headers_username request)) i account ∧
    l ∈ u_todos account ∧
    checksTodoExists st request = Next (attach_todo l (attach_user i request)).
Proof.
  destruct (checksTodoExists st request) as [r|res] eqn:E.
  - right. apply checksTodoExists_Next in E
      as (_ & i & account & b & l & a & Hacc & Htodos & _ & _ & ->).
    exists i, account, l. split; [done|]. split; [|done].
    rewrite Htodos. set_solver.
  - left. revert E. unfold checksTodoExists.
    destruct (validate (params_id request)); simpl.
    + destruct (first_match _ (users st)) as [[i account]|].
      * destruct (existsb _ (u_todos account)); [done|].
        intros [= <-]. exists "Todo not found", 404. by split; [right|].
      * intros [= <-]. exists "User not found", 404. by split; [right|].
    + intros [= <-]. exists "Id is not uuid", 400. by split; [left|].
Qed.

Lemma is_account_insert st username i user u' :
  is_account st username i user →
  u_username u' = u_username user →
  is_account (with_users (<[i := u']> (users st)) st) username i u'.
Proof.
  intros (Hl & Heq & Hmin) Hu. split; [|split]; simpl.
  - apply list_lookup_insert_eq. by apply lookup_lt_Some in Hl.
  - by rewrite Hu.
  - intros j u Hj Hlt. rewrite list_lookup_insert_ne in Hj by lia.
    by apply (Hmin j).
Qed.

(** ** Deleting a task *)

(** C9: in [DELETE /todos/:id], once [checksExistsUserAccount] and
    [checksTodoExists] have both called [next], the task attached to
    the request is an element of the [todos] array of the user attached
    to the request, [indexOf] finds it, and the handler answers 204:
    the branch that answers 404 "Todo not found" is not taken. *)
Theorem delete_todo_finds_task (env : Env) (st : Store)
    (request r1 r2 : Request) :
  checksExistsUserAccount st request = Next r1 →
  checksTodoExists st r1 = Next r2 →
  ∃ i l k,
    req_user r2 = Some i ∧
    req_todo r2 = Some l ∧
    l ∈ u_todos (user_at st i) ∧
    indexOf (u_todos (user_at st i)) l = Some k ∧
    app DELETE_todos_id env st request = delete_todo env st r2 ∧
    (delete_todo env st r2).2 = mkResponse 204 PEmpty.
Proof.
  intros H1 H2.
  assert (app DELETE_todos_id env st request = delete_todo env st r2) as Happ.
  { unfold app, pipeline. by rewrite H1, H2. }
  apply checksExistsUserAccount_Next in H1 as (i0 & user0 & _ & ->).
  apply checksTodoExists_Next in H2
    as (_ & i & account & before & l & after & Hacc & Htodos & _ & _ & ->).
  pose proof (is_account_user_at _ _ _ _ Hacc) as Hat.
  assert (l ∈ u_todos (user_at st i)) as Hin.
  { rewrite Hat, Htodos. set_solver. }
  destruct (indexOf_elem _ _ Hin) as [k Hk].
  exists i, l, k. repeat (split; [done|]).
  unfold delete_todo. read_request. by rewrite Hk.
Qed.

Lemma delete_todo_finds_task_witness :
  (app DELETE_todos_id (mkEnv "" 0) Samples.store_tasks
       (Samples.bare (Some "ana") Samples.other_task_id)).2
  = mkResponse 204 PEmpty.
Proof.
  destruct (delete_todo_finds_task (mkEnv "" 0) Samples.store_tasks
              (Samples.bare (Some "ana") Samples.other_task_id)
              (attach_user 0 (Samples.bare (Some "ana") Samples.other_task_id))
              (attach_todo 2%positive
                 (attach_user 0
                    (Samples.bare (Some "ana") Samples.other_task_id)))
              eq_refl eq_refl)
    as (i & l & k & _ & _ & _ & _ & -> & Hres).
  exact Hres.
Defined.

Lemma not_elem_of_delete_NoDup (ts : list loc) (k : nat) (l : loc) :
  NoDup ts → ts !! k = Some l → l ∉ delete k ts.
Proof.
  intros Hnd Hk (j & Hj)%list_elem_of_lookup.
  rewrite list_lookup_delete in Hj.
  pose proof (NoDup_lookup ts _ k l Hnd Hj Hk) as Heq.
  destruct (decide (j < k)); lia.
Qed.

(** C6: a [DELETE /todos/:id] request that passes both guards, in a
    store the service can be in.  The task [l] with the given id that
    the guard attached sits at one position [k] of the owner's array;
    the handler removes exactly that entry and leaves the rest of the
    array, the other users and the heap as they were; the answer is
    204 with an empty body; the task is no longer in the owner's array
    and a later [GET /todos] with the same [username] header returns
    the former list without its entry [k]. *)
Theorem delete_todo_removes_one (env : Env) (st : Store)
    (request r1 r2 : Request) :
  reachable st →
  checksExistsUserAccount st request = Next r1 →
  checksTodoExists st r1 = Next r2 →
  ∃ i user k l,
    is_account st (header_value (headers_username request)) i user ∧
    u_todos user !! k = Some l ∧
    req_todo r2 = Some l ∧
    t_id (todo_at st l) = params_id request ∧
    let st' :=
      with_users
        (<[i := set_todos (delete k (u_todos user)) user]> (users st)) st in
    app DELETE_todos_id env st request = (st', mkResponse 204 PEmpty) ∧
    (length (delete k (u_todos user)) + 1 = length (u_todos user))%nat ∧
    (l ∉ delete k (u_todos user)) ∧
    ∀ env' request',
      headers_username request' = headers_username request →
      app GET_todos env' st request'
        = (st, mkResponse 200 (PTodos (todos_of st user))) ∧
      app GET_todos env' st' request'
        = (st', mkResponse 200 (PTodos (delete k (todos_of st user)))).
Proof.
  intros Hreach H1 H2.
  assert (app DELETE_todos_id env st request = delete_todo env st r2) as Happ.
  { unfold app, pipeline. by rewrite H1, H2. }
  apply checksExistsUserAccount_Next in H1 as (i0 & user0 & _ & ->).
  apply checksTodoExists_Next in H2
    as (_ & i & user & before & l & after & Hacc & Htodos & Hid & _ & ->).
  read_request in Hacc. read_request in Hid.
  pose proof (is_account_user_at _ _ _ _ Hacc) as Hat.
  assert (owned (heap st) user) as [Hnd _].
  { rewrite <- Hat. by apply owned_user_at, reachable_todos_owned. }
  set (k := length before).
  assert (u_todos user !! k = Some l) as Hk.
  { rewrite Htodos. by apply list_lookup_middle. }
  exists i, user, k, l. repeat (split; [done|]).
  intros st'. split; [|split; [|split]].
  - rewrite Happ. unfold delete_todo. read_request. rewrite Hat.
    by rewrite (indexOf_NoDup _ _ _ Hnd Hk).
  - rewrite length_delete by (by eexists).
    apply lookup_lt_Some in Hk. lia.
  - by apply not_elem_of_delete_NoDup.
  - intros env' request' Hh.
    unfold app, pipeline, checksExistsUserAccount. rewrite Hh. split.
    + apply account_found in Hacc. rewrite Hacc.
      unfold get_todos. read_request. by rewrite Hat.
    + pose proof (is_account_insert st _ i user
                    (set_todos (delete k (u_todos user)) user) Hacc eq_refl)
        as Hacc'.
      pose proof (is_account_user_at _ _ _ _ Hacc') as Hat'.
      apply account_found in Hacc'. fold st' in Hacc', Hat'. rewrite Hacc'.
      unfold get_todos. read_request. rewrite Hat'.
      unfold todos_of. simpl. by rewrite list_fmap_delete.
Qed.

Lemma delete_todo_removes_one_witness :
  (app DELETE_todos_id (mkEnv "" 0) Samples.store_tasks
       (Samples.bare (Some "ana") Samples.task_id)).2
  = mkResponse 204 PEmpty.
Proof.
  assert (reachable Samples.store_tasks) as Hreach.
  { apply reachable_serve_all, reachable_start. }
  destruct (delete_todo_removes_one (mkEnv "" 0) Samples.store_tasks
              (Samples.bare (Some "ana") Samples.task_id)
              (attach_user 0 (Samples.bare (Some "ana") Samples.task_id))
              (attach_todo 1%positive
                 (attach_user 0 (Samples.bare (Some "ana") Samples.task_id)))
              Hreach eq_refl eq_refl)
    as (i & user & k & l & _ & _ & _ & _ & Hdel).
  cbv zeta in Hdel. destruct Hdel as (-> & _). reflexivity.
Defined.

Example delete_first_task :
  users (app DELETE_todos_id (mkEnv "" 0) Samples.store_tasks
             (Samples.bare (Some "ana") Samples.task_id)).1
  = [mkUser Samples.ana_id (JStr "Ana") (JStr "ana") false [2%positive]].
Proof. vm_compute. reflexivity. Qed.

(** ** Updating a task *)

(** The two assignments of the handler, read off the heap: the second
    one is not reached when [new Date(deadline)] throws. *)
Lemma put_todo_result (env : Env) (st : Store) (r : Request) (l : loc) :
  req_todo r = Some l →
  let t1 := set_title (body_title r) (todo_at st l) in
  let t2 := set_deadline (DateOf (body_deadline r)) t1 in
  put_todo env st r
  = if to_primitive_throws (body_deadline r)
    then (with_heap (<[l := t1]> (heap st)) st, uncaught)
    else (with_heap (<[l := t2]> (<[l := t1]> (heap st))) st,
          mkResponse 200 (PTodo t2)).
Proof.
  intros Hl t1 t2. unfold put_todo, new_Date. rewrite Hl.
  destruct (to_primitive_throws (body_deadline r)); [reflexivity|].
  unfold todo_at, with_heap. cbn [heap users].
  rewrite !lookup_total_insert_eq. reflexivity.
Qed.



(** The path the 200 leaves out: the title of Ana's first task is
    written, [new Date] throws, the answer is 500 and the deadline is
    the old one. *)
Example put_todo_thrown :
  let request :=
    mkRequest (Some "ana") Samples.task_id JUndefined JUndefined
              (JStr "new title") Samples.unconvertible None None in
  let result := app PUT_todos_id (mkEnv "" 0) Samples.store_tasks request in
  result.2 = mkResponse 500 PException ∧
  todo_at result.1 1%positive
  = mkTodo Samples.task_id (JStr "new title") (DateOf (JStr "2030-01-01"))
           false (DateNow 1000).
Proof. vm_compute. split; reflexivity. Qed.

(** ** Creating a user without a username *)

Lemma usernames_step_prefix (st st' : Store) :
  usernames_step st st' → usernames st `prefix_of` usernames st'.
Proof.
  intros [->|v -> _]; [done|]. by apply prefix_app_r.
Qed.

Lemma serve_all_usernames_prefix (st : Store) (cs : list Call) :
  usernames st `prefix_of` usernames (serve_all st cs).1.
Proof.
  revert st. induction cs as [|c cs IH]; intros st; simpl; [done|].
  pose proof (serve_usernames_step st c) as Hstep.
  destruct (serve st c) as [st1 res].
  specialize (IH st1). destruct (serve_all st1 cs) as [st2 ress].
  simpl in *. etrans; [by apply usernames_step_prefix|done].
Qed.

(** C10: [POST /users] does not look at what [name] and [username]
    hold.  With no [username] field in the body the duplicate check
    compares [undefined]: on the empty store the request is answered
    201 and creates a user whose username is [undefined]; from then
    on, whatever requests are served in between, every [POST /users]
    without a [username] field is answered 400 "Username already
    exists" and leaves the store as it is. *)
Theorem post_users_without_username (env env' : Env)
    (request request' : Request) (cs : list Call) :
  body_username request = JUndefined →
  body_username request' = JUndefined →
  let created := mkUser (uuidv4 env) (body_name request) JUndefined false [] in
  let first := serve empty_store (mkCall POST_users env request) in
  first = (mkStore [created] ∅,
           mkResponse 201
             (PUser (mkUserJSON (uuidv4 env) (body_name request) JUndefined
                                false []))) ∧
  let st := (serve_all first.1 cs).1 in
  serve st (mkCall POST_users env' request')
    = (st, error_response 400 "Username already exists").
Proof.
  intros Hu Hu' created first.
  assert (first = (mkStore [created] ∅,
                   mkResponse 201
                     (PUser (mkUserJSON (uuidv4 env) (body_name request)
                                        JUndefined false [])))) as Hfirst.
  { unfold first, serve, app, pipeline, post_users. read_request. simpl.
    unfold created. by rewrite Hu. }
  split; [done|]. intros st.
  unfold serve, app, pipeline, post_users. read_request. simpl.
  assert (existsb (λ user, strict_eq (u_username user) (body_username request'))
                  (users st) = true) as ->; [|reflexivity].
  assert (JUndefined ∈ usernames st) as (u & Hun & Hin)%list_elem_of_fmap.
  { eapply elem_of_prefix; [|apply serve_all_usernames_prefix].
    rewrite Hfirst. unfold usernames. simpl. set_solver. }
  apply existsb_exists. exists u. split; [by apply list_elem_of_In|].
  by rewrite Hu', <- Hun.
Qed.

Lemma post_users_without_username_witness :
  let nameless :=
    mkRequest None "" (JStr "Ana") JUndefined JUndefined JUndefined None None in
  (serve (serve_all
            (serve empty_store
               (mkCall POST_users (mkEnv Samples.ana_id 0) nameless)).1
            Samples.registrations).1
         (mkCall POST_users (mkEnv Samples.task_id 5) nameless)).2
  = error_response 400 "Username already exists".
Proof.
  intros nameless.
  pose proof (post_users_without_username (mkEnv Samples.ana_id 0)
                (mkEnv Samples.task_id 5) nameless nameless
                Samples.registrations eq_refl eq_refl) as H.
  cbv zeta in H. destruct H as (_ & ->). reflexivity.
Defined.

(** ** Further properties of the guards and handlers *)

(** X1: [checksTodoExists] answers 400 only with the message "Id is not
    uuid" and only for an id that [validate] refuses; such an id is not
    a version-4 UUID, so no version-4 UUID is ever refused for its
    format. *)
Theorem checksTodoExists_400_only_malformed (st : Store)
    (request : Request) (res : Response) :
  checksTodoExists st request = Send res →
  status res = 400 →
  res = error_response 400 "Id is not uuid" ∧
  validate (params_id request) = false ∧
  is_uuid_v4 (params_id request) = false.
Proof.
  unfold checksTodoExists.
  destruct (validate (params_id request)) eqn:Ev; simpl.
  - destruct (first_match _ (users st)) as [[i account]|].
    + destruct (existsb _ (u_todos account)); [done|].
      by intros [= <-].
    + by intros [= <-].
  - intros [= <-] _. split; [done|]. split; [done|].
    destruct (is_uuid_v4 (params_id request)) eqn:E4; [|done].
    apply validate_v4 in E4. congruence.
Qed.

Lemma checksTodoExists_400_only_malformed_witness :
  validate "not-a-uuid" = false ∧ is_uuid_v4 "not-a-uuid" = false.
Proof.
  apply (checksTodoExists_400_only_malformed Samples.store_tasks
           (Samples.bare (Some "ana") "not-a-uuid")
           (error_response 400 "Id is not uuid") eq_refl eq_refl).
Defined.

(** The scenario of the specification.  Registration is answered
    201, the ten task creations 201 each, the eleventh 403, the upgrade
    200 and the creation after it 201; the user then holds eleven
    tasks. *)
Theorem quota_scenario_run :
  let result := serve_all empty_store Samples.quota_scenario in
  status <$> result.2 = [201] ++ replicate 10 201 ++ [403; 200; 201] ∧
  (length ∘ u_todos) <$> users result.1 = [11] ∧
  u_pro <$> users result.1 = [true].
Proof. vm_compute. repeat split; reflexivity. Qed.

(** X3: [GET /todos] with a [username] header that names no user is
    answered 404 "User not found!" and leaves the store as it is. *)
Theorem get_todos_unknown_user (env : Env) (st : Store) (request : Request) :
  no_account st (header_value (headers_username request)) →
  app GET_todos env st request = (st, error_response 404 "User not found!").
Proof.
  intros Hno%account_missing.
  unfold app, pipeline, checksExistsUserAccount. by rewrite Hno.
Qed.

Lemma get_todos_unknown_user_witness :
  app GET_todos (mkEnv "" 0) Samples.store_ana (Samples.bare (Some "bob") "")
  = (Samples.store_ana, error_response 404 "User not found!").
Proof.
  apply get_todos_unknown_user.
  intros user ->%list_elem_of_singleton. reflexivity.
Defined.

(** X4: a [PATCH /todos/:id/done] request that passes
    [checksTodoExists] sets [done] on the attached task and returns it
    with 200; the task's other fields, the array [users] and every
    other task object are unchanged. *)
Theorem patch_todo_done_frame (env : Env) (st : Store)
    (request r : Request) :
  checksTodoExists st request = Next r →
  ∃ l,
    req_todo r = Some l ∧
    t_id (todo_at st l) = params_id request ∧
    let result := app PATCH_todos_id_done env st request in
    let updated := todo_at result.1 l in
    result.2 = mkResponse 200 (PTodo updated) ∧
    updated = set_done true (todo_at st l) ∧
    users result.1 = users st ∧
    ∀ l', l' ≠ l → heap result.1 !! l' = heap st !! l'.
Proof.
  intros H.
  assert (app PATCH_todos_id_done env st request = patch_todo_done env st r)
    as Happ.
  { unfold app, pipeline. by rewrite H. }
  apply checksTodoExists_Next in H
    as (_ & i & user & before & l & after & _ & _ & Hid & _ & ->).
  exists l. split; [done|]. split; [done|].
  intros result updated. unfold updated, result. rewrite Happ.
  unfold patch_todo_done. read_request.
  unfold todo_at, with_heap. cbn [fst snd heap users].
  rewrite !lookup_total_insert_eq.
  repeat (split; [reflexivity|]).
  intros l' Hne. by rewrite lookup_insert_ne.
Qed.

Lemma patch_todo_done_frame_witness :
  let request := Samples.bare (Some "ana") Samples.other_task_id in
  (app PATCH_todos_id_done (mkEnv "" 0) Samples.store_tasks request).2
  = mkResponse 200
      (PTodo (mkTodo Samples.other_task_id (JStr "y")
                     (DateOf (JStr "2030-01-01")) true (DateNow 1000))).
Proof.
  intros request.
  destruct (patch_todo_done_frame (mkEnv "" 0) Samples.store_tasks request
              (attach_todo 2%positive (attach_user 0 request)) eq_refl)
    as (l & Hl & _ & Hdone).
  cbv zeta in Hdone. destruct Hdone as (-> & _).
  injection Hl as <-. reflexivity.
Defined.

Lemma user_persists_refl (u : User) : user_persists u u.
Proof. by repeat split. Qed.

Lemma users_persist_insert (us : list User) (i : nat) (u' : User) :
  (∀ u, us !! i = Some u → user_persists u u') →
  ∀ j u, us !! j = Some u →
         ∃ u'', <[i := u']> us !! j = Some u'' ∧ user_persists u u''.
Proof.
  intros Hi j u Hj. destruct (decide (i = j)) as [->|Hne].
  - exists u'. split; [|by apply Hi].
    apply list_lookup_insert_eq. by apply lookup_lt_Some in Hj.
  - exists u. split; [|apply user_persists_refl].
    by rewrite list_lookup_insert_ne.
Qed.

(** X5: no request removes a user or moves it in [users], changes a
    user's id, name or username, or takes the pro plan away. *)
Theorem serve_keeps_users (st : Store) (c : Call) (i : nat) (u : User) :
  users st !! i = Some u →
  ∃ u', users (serve st c).1 !! i = Some u' ∧ user_persists u u'.
Proof.
  revert i u. unfold serve.
  apply (app_related
           (λ st st', ∀ i u, users st !! i = Some u →
                             ∃ u', users st' !! i = Some u' ∧
                                   user_persists u u')); clear.
  - intros st i u Hi. exists u. split; [done|apply user_persists_refl].
  - intros env st r i u Hi. exists u. split; [|apply user_persists_refl].
    unfold post_users. destruct (existsb _ (users st)); simpl; [done|].
    by apply lookup_app_l_Some.
  - intros env st r. unfold patch_user_pro.
    destruct (req_user r) as [k|];
      [|intros i u Hi; exists u; split; [done|apply user_persists_refl]].
    destruct (u_pro (user_at st k));
      [intros i u Hi; exists u; split; [done|apply user_persists_refl]|].
    simpl. apply users_persist_insert. intros u Hk.
    unfold user_at. rewrite (list_lookup_total_correct _ _ _ Hk).
    by repeat split.
  - intros env st r. unfold post_todos.
    destruct (new_Date (body_deadline r));
      [|intros i u Hi; exists u; split; [done|apply user_persists_refl]].
    destruct (req_user r) as [k|];
      [|intros i u Hi; exists u; split; [done|apply user_persists_refl]].
    simpl. apply users_persist_insert. intros u Hk.
    unfold user_at. rewrite (list_lookup_total_correct _ _ _ Hk).
    by repeat split.
  - intros env st r i u Hi. exists u. split; [|apply user_persists_refl].
    unfold put_todo. destruct (req_todo r); [|done].
    by destruct (new_Date (body_deadline r)).
  - intros env st r i u Hi. exists u. split; [|apply user_persists_refl].
    unfold patch_todo_done. by destruct (req_todo r).
  - intros env st r. unfold delete_todo.
    destruct (req_user r) as [k|];
      [|intros i u Hi; exists u; split; [done|apply user_persists_refl]].
    destruct (match req_todo r with Some l => _ | None => _ end);
      [|intros i u Hi; exists u; split; [done|apply user_persists_refl]].
    simpl. apply users_persist_insert. intros u Hk.
    unfold user_at. rewrite (list_lookup_total_correct _ _ _ Hk).
    by repeat split.
Qed.

Lemma serve_keeps_users_witness :
  ∃ u', users (serve Samples.store_ana
                 (mkCall PATCH_users_id_pro (mkEnv "" 0)
                    (Samples.bare None Samples.ana_id))).1 !! 0%nat = Some u' ∧
        user_persists
          (mkUser Samples.ana_id (JStr "Ana") (JStr "ana") false []) u'.
Proof.
  apply (serve_keeps_users Samples.store_ana). reflexivity.
Defined.

(** ** The outcomes of the guards *)

Lemma checksExistsUserAccount_cases st request :
  checksExistsUserAccount st request
    = Send (error_response 404 "User not found!") ∨
  ∃ i user,
    is_account st (header_value (headers_username request)) i user ∧
    checksExistsUserAccount st request = Next (attach_user i request).
Proof.
  unfold checksExistsUserAccount.
  destruct (first_match _ (users st)) as [[i user]|] eqn:E; [|by left].
  right. exists i, user. split; [by apply account_found|done].
Qed.

Lemma findUserById_cases st request :
  findUserById st request = Send (error_response 404 "User not found!") ∨
  ∃ i user,
    is_user_by_id st (params_id request) i user ∧
    findUserById st request = Next (attach_user i request).
Proof.
  unfold findUserById.
  destruct (first_match _ (users st)) as [[i user]|] eqn:E; [|by left].
  right. exists i, user. split; [by apply user_by_id_found|done].
Qed.

(** ** What every route answers *)

(** X6: each route answers only with the status codes of its row:
    those of the interface table, and 500 on the two routes that build
    a [Date] from the body, [POST /todos] and [PUT /todos/:id], exactly
    for a deadline [new Date] cannot convert.  No handler ever throws
    for want of [request.user] or [request.todo], since the guards of
    its route have attached what it reads. *)
Theorem route_statuses (route : Route) (env : Env) (st : Store)
    (request : Request) :
  status (app route env st request).2 ∈ statuses_of route ∧
  (status (app route env st request).2 = 500 →
   to_primitive_throws (body_deadline request) = true).
Proof.
  destruct route; unfold app, pipeline, statuses_of.
  - unfold post_users. destruct (existsb _ (users st)); status_case.
  - destruct (findUserById_cases st request) as [->|(i & u & _ & ->)];
      status_case.
  - destruct (findUserById_cases st request) as [->|(i & u & _ & ->)];
      [status_case|].
    unfold patch_user_pro. read_request.
    destruct (u_pro (user_at st i)); status_case.
  - destruct (checksExistsUserAccount_cases st request)
      as [->|(i & u & _ & ->)]; status_case.
  - destruct (checksExistsUserAccount_cases st request)
      as [->|(i & u & _ & ->)]; [status_case|].
    unfold checksCreateTodosUserAvailability. read_request.
    destruct (_ || _); [|status_case].
    unfold post_todos, new_Date. read_request.
    destruct (to_primitive_throws (body_deadline request)); status_case.
  - destruct (checksTodoExists_cases st request)
      as [(msg & code & [->| ->] & ->)|(i & u & l & _ & _ & ->)];
      [status_case..|].
    unfold put_todo, new_Date. read_request.
    destruct (to_primitive_throws (body_deadline request)); status_case.
  - destruct (checksTodoExists_cases st request)
      as [(msg & code & [->| ->] & ->)|(i & u & l & _ & _ & ->)];
      status_case.
  - destruct (checksExistsUserAccount_cases st request)
      as [->|(i & u & _ & ->)]; [status_case|].
    destruct (checksTodoExists_cases st (attach_user i request))
      as [(msg & code & [->| ->] & ->)|(i' & u' & l & _ & _ & ->)];
      [status_case..|].
    unfold delete_todo. read_request.
    destruct (indexOf _ l); status_case.
Qed.

(** X7: a request that is answered with an error status (400 or
    above) leaves the store exactly as it was, every check coming
    before the first write, with one exception: a [PUT /todos/:id]
    answered 500. *)
Theorem failed_request_keeps_store (route : Route) (env : Env) (st : Store)
    (request : Request) :
  let result := app route env st request in
  (400 ≤ status result.2)%nat →
  (route = PUT_todos_id → status result.2 ≠ 500) →
  result.1 = st.
Proof.
  intros result. unfold result.
  destruct route; unfold app, pipeline; intros Hstatus Hput.
  - revert Hstatus. unfold post_users.
    destruct (existsb _ (users st)); simpl; [done|lia].
  - by destruct (findUserById_cases st request) as [->|(i & u & _ & ->)].
  - revert Hstatus.
    destruct (findUserById_cases st request) as [->|(i & u & _ & ->)];
      [done|].
    unfold patch_user_pro. read_request.
    destruct (u_pro (user_at st i)); simpl; [done|lia].
  - by destruct (checksExistsUserAccount_cases st request)
      as [->|(i & u & _ & ->)].
  - revert Hstatus.
    destruct (checksExistsUserAccount_cases st request)
      as [->|(i & u & _ & ->)]; [done|].
    unfold checksCreateTodosUserAvailability. read_request.
    destruct (_ || _); [|done].
    unfold post_todos, new_Date. read_request.
    destruct (to_primitive_throws (body_deadline request)); simpl; [done|lia].
  - specialize (Hput eq_refl). revert Hstatus Hput.
    destruct (checksTodoExists_cases st request)
      as [(msg & code & _ & ->)|(i & u & l & _ & _ & ->)]; [done|].
    unfold put_todo, new_Date. read_request.
    destruct (to_primitive_throws (body_deadline request)); simpl; [done|lia].
  - revert Hstatus.
    destruct (checksTodoExists_cases st request)
      as [(msg & code & _ & ->)|(i & u & l & _ & _ & ->)]; [done|].
    simpl. lia.
  - revert Hstatus.
    destruct (checksExistsUserAccount_cases st request)
      as [->|(i & u & _ & ->)]; [done|].
    destruct (checksTodoExists_cases st (attach_user i request))
      as [(msg & code & _ & ->)|(i' & u' & l & _ & _ & ->)]; [done|].
    unfold delete_todo. read_request.
    destruct (indexOf _ l); simpl; [lia|done].
Qed.

Lemma failed_request_keeps_store_witness :
  (app POST_todos (mkEnv Samples.task_id 0) Samples.store_full
       (Samples.bare (Some "ana") "")).1
  = Samples.store_full.
Proof.
  refine (failed_request_keeps_store POST_todos (mkEnv Samples.task_id 0)
            Samples.store_full (Samples.bare (Some "ana") "") _ _).
  - vm_compute. lia.
  - intros [=].
Defined.

(** X22: the exception.  When a [PUT /todos/:id] request passes the
    guard and [new Date(deadline)] throws, the answer is 500 and the
    title of the attached task is nevertheless the one of the body:
    the handler has assigned it before the throw and nothing takes it
    back.  The task's deadline and other fields, the array [users] and
    every other task are unchanged. *)
Theorem put_todo_partial_write (env : Env) (st : Store)
    (request r : Request) :
  checksTodoExists st request = Next r →
  to_primitive_throws (body_deadline request) = true →
  ∃ l,
    req_todo r = Some l ∧
    let result := app PUT_todos_id env st request in
    result.2 = mkResponse 500 PException ∧
    todo_at result.1 l
    = mkTodo (t_id (todo_at st l)) (body_title request)
             (t_deadline (todo_at st l)) (t_done (todo_at st l))
             (t_created_at (todo_at st l)) ∧
    users result.1 = users st ∧
    ∀ l', l' ≠ l → heap result.1 !! l' = heap st !! l'.
Proof.
  intros H Hthrow.
  assert (app PUT_todos_id env st request = put_todo env st r) as Happ.
  { unfold app, pipeline. by rewrite H. }
  apply checksTodoExists_Next in H
    as (_ & i & user & before & l & after & _ & _ & _ & _ & ->).
  exists l. split; [done|]. intros result. unfold result. rewrite Happ.
  rewrite (put_todo_result env st (attach_todo l (attach_user i request)) l
             eq_refl).
  read_request. rewrite Hthrow.
  unfold todo_at, with_heap. cbn [fst snd heap users].
  rewrite lookup_total_insert_eq.
  repeat (split; [reflexivity|]).
  intros l' Hne. by rewrite lookup_insert_ne.
Qed.

Lemma put_todo_partial_write_witness :
  let request :=
    mkRequest (Some "ana") Samples.task_id JUndefined JUndefined
              (JStr "new title") Samples.unconvertible None None in
  let result := app PUT_todos_id (mkEnv "" 0) Samples.store_tasks request in
  result.2 = mkResponse 500 PException ∧
  todo_at result.1 1%positive
  = mkTodo Samples.task_id (JStr "new title") (DateOf (JStr "2030-01-01"))
           false (DateNow 1000).
Proof.
  intros request result.
  destruct (put_todo_partial_write (mkEnv "" 0) Samples.store_tasks request
              (attach_todo 1%positive (attach_user 0 request))
              eq_refl eq_refl)
    as (l & Hl & Hres).
  injection Hl as <-. cbv zeta in Hres.
  destruct Hres as (H500 & Htitle & _). by split.
Defined.

(** ** The free-plan quota as an invariant *)

Lemma Forall_user_at (P : User → Prop) (st : Store) (i : nat) :
  Forall P (users st) → P inhabitant → P (user_at st i).
Proof.
  intros Hall Hdef. unfold user_at. rewrite list_lookup_total_alt.
  destruct (users st !! i) as [u|] eqn:E; simpl; [|done].
  rewrite Forall_lookup in Hall. by apply (Hall i).
Qed.

Lemma within_quota_default : within_quota inhabitant.
Proof. intros _. simpl. lia. Qed.

Lemma serve_within_quota (st : Store) (c : Call) :
  Forall within_quota (users st) →
  Forall within_quota (users (serve st c).1).
Proof.
  unfold serve. generalize (incoming (call_request c)) as request.
  generalize (call_env c) as env. intros env request Hq.
  destruct (call_route c); unfold app.
  - unfold pipeline, post_users.
    destruct (existsb _ (users st)); simpl; [done|].
    apply Forall_app. split; [done|]. constructor; [|constructor].
    intros _. simpl. lia.
  - unfold pipeline.
    destruct (findUserById st request); [|done].
    unfold get_user. by destruct (req_user r).
  - unfold pipeline.
    destruct (findUserById st request); [|done].
    unfold patch_user_pro. destruct (req_user r) as [i|]; [|done].
    destruct (u_pro (user_at st i)); [done|]. simpl.
    apply Forall_insert; [done|]. by intros [=].
  - unfold pipeline.
    destruct (checksExistsUserAccount st request); [|done].
    unfold get_todos. by destruct (req_user r).
  - unfold pipeline.
    destruct (checksExistsUserAccount_cases st request)
      as [->|(i & u & Hacc & ->)]; [done|].
    pose proof (is_account_user_at _ _ _ _ Hacc) as Hat.
    unfold checksCreateTodosUserAvailability. read_request. rewrite Hat.
    destruct ((length (u_todos u) <? 10)%nat || u_pro u) eqn:Hc; [|done].
    unfold post_todos. read_request.
    destruct (new_Date (body_deadline request)); [|done].
    rewrite Hat. simpl.
    apply Forall_insert; [done|].
    intros Hpro. simpl in Hpro. rewrite Hpro, orb_false_r in Hc.
    apply Nat.ltb_lt in Hc. simpl. rewrite length_app. simpl. lia.
  - unfold pipeline.
    destruct (checksTodoExists st request); [|done].
    unfold put_todo. destruct (req_todo r); [|done].
    by destruct (new_Date (body_deadline r)).
  - unfold pipeline.
    destruct (checksTodoExists st request); [|done].
    unfold patch_todo_done. by destruct (req_todo r).
  - unfold pipeline.
    destruct (checksExistsUserAccount st request) as [r1|]; [|done].
    destruct (checksTodoExists st r1) as [r2|]; [|done].
    unfold delete_todo. destruct (req_user r2) as [i|]; [|done].
    destruct (match req_todo r2 with Some l => _ | None => _ end) as [k|];
      [|done].
    simpl. apply Forall_insert; [done|].
    pose proof (Forall_user_at _ st i Hq within_quota_default) as Hi.
    intros Hpro. simpl in *. specialize (Hi Hpro).
    pose proof (sublist_length _ _ (sublist_delete (u_todos (user_at st i)) k)).
    unfold splice1. lia.
Qed.

Lemma reachable_within_quota (st : Store) :
  reachable st → Forall within_quota (users st).
Proof.
  induction 1 as [|st c _ IH]; [constructor|by apply serve_within_quota].
Qed.

(** X2: starting from the empty store, after any sequence of requests,
    a user whose [pro] flag is false holds at most ten tasks: the quota
    guard stands before the only [push], and no request turns a pro
    user back into a free one. *)
Theorem free_plan_at_most_ten (cs : list Call) (u : User) :
  u ∈ users (serve_all empty_store cs).1 →
  u_pro u = false →
  (length (u_todos u) ≤ 10)%nat.
Proof.
  intros Hu Hpro.
  assert (Forall within_quota (users (serve_all empty_store cs).1)) as Hq.
  { apply reachable_within_quota, reachable_serve_all. constructor. }
  rewrite Forall_forall in Hq. by apply (Hq u).
Qed.

Lemma free_plan_at_most_ten_witness :
  (length (u_todos (user_at Samples.store_full 0)) ≤ 10)%nat.
Proof.
  apply (free_plan_at_most_ten
           (Samples.create_ana ::
            replicate 10 (Samples.add_task Samples.task_id "x"))).
  - apply (list_elem_of_lookup_2 _ 0). vm_compute. reflexivity.
  - vm_compute. reflexivity.
Defined.

(** ** Looking users up by id *)

Lemma user_by_id_missing st id :
  first_match (λ account, String.eqb (u_id account) id) (users st) = None
  ↔ ∀ u, u ∈ users st → u_id u ≠ id.
Proof.
  rewrite first_match_None. split; intros H u Hu.
  - by apply String.eqb_neq, H.
  - by apply String.eqb_neq, H.
Qed.

Lemma is_user_by_id_user_at st id i user :
  is_user_by_id st id i user → user_at st i = user.
Proof.
  intros (Hl & _). unfold user_at. by apply list_lookup_total_correct.
Qed.

Lemma is_user_by_id_insert st st' id i user u' :
  is_user_by_id st id i user →
  users st' = <[i := u']> (users st) →
  u_id u' = u_id user →
  is_user_by_id st' id i u'.
Proof.
  intros (Hl & Heq & Hmin) Hus Hid. unfold is_user_by_id. rewrite Hus.
  split; [|split].
  - apply list_lookup_insert_eq. by apply lookup_lt_Some in Hl.
  - by rewrite Hid.
  - intros j u Hj Hlt. rewrite list_lookup_insert_ne in Hj by lia.
    by apply (Hmin j).
Qed.

(** X8: when no user of the store has the id of the route parameter,
    both routes behind [findUserById] answer 404 "User not found!" and
    leave the store as it is. *)
Theorem unknown_user_id (env : Env) (st : Store) (request : Request) :
  (∀ u, u ∈ users st → u_id u ≠ params_id request) →
  app GET_users_id env st request
    = (st, error_response 404 "User not found!") ∧
  app PATCH_users_id_pro env st request
    = (st, error_response 404 "User not found!").
Proof.
  intros Hno%user_by_id_missing.
  unfold app, pipeline, findUserById. by rewrite Hno.
Qed.

Lemma unknown_user_id_witness :
  app PATCH_users_id_pro (mkEnv "" 0) Samples.store_ana
      (Samples.bare None Samples.task_id)
  = (Samples.store_ana, error_response 404 "User not found!").
Proof.
  apply unknown_user_id.
  intros u Hu. apply list_elem_of_singleton in Hu. by subst u.
Defined.

(** X9: a user that [POST /users] has created is found again by its
    id.  When the username is free and no user of the store carries the
    generated id, [GET /users/:id] with that id returns, with 200, the
    very body the creation returned with 201, and changes nothing. *)
Theorem post_users_then_get_user (env env' : Env) (st : Store)
    (request request' : Request) :
  no_account st (body_username request) →
  (∀ u, u ∈ users st → u_id u ≠ uuidv4 env) →
  params_id request' = uuidv4 env →
  let created := app POST_users env st request in
  status created.2 = 201 ∧
  app GET_users_id env' created.1 request'
    = (created.1, mkResponse 200 (payload created.2)).
Proof.
  intros Hno Hid Hparam created.
  assert (created =
          (with_users
             (users st ++
              [mkUser (uuidv4 env) (body_name request) (body_username request)
                      false []]) st,
           mkResponse 201
             (PUser (mkUserJSON (uuidv4 env) (body_name request)
                                (body_username request) false [])))) as ->.
  { unfold created, app, pipeline, post_users.
    assert (existsb (λ user, strict_eq (u_username user)
                               (body_username request)) (users st) = false)
      as ->; [|reflexivity].
    apply existsb_false_Forall, Forall_forall. exact Hno. }
  split; [reflexivity|]. cbn [fst snd payload].
  set (user := mkUser _ _ _ _ _).
  set (st1 := with_users _ st).
  assert (is_user_by_id st1 (params_id request') (length (users st)) user)
    as Hfound.
  { split; [|split].
    - unfold st1. simpl. by apply list_lookup_middle.
    - rewrite Hparam. apply String.eqb_refl.
    - intros j u Hj Hlt. unfold st1 in Hj. simpl in Hj.
      rewrite lookup_app_l in Hj by done.
      rewrite Hparam. apply String.eqb_neq, Hid.
      by apply (list_elem_of_lookup_2 _ j). }
  pose proof (is_user_by_id_user_at _ _ _ _ Hfound) as Hat.
  apply user_by_id_found in Hfound.
  unfold app, pipeline, findUserById. rewrite Hfound.
  unfold get_user. read_request. rewrite Hat. reflexivity.
Qed.

Lemma post_users_then_get_user_witness :
  let bob :=
    mkRequest None "" (JStr "Bob") (JStr "bob") JUndefined JUndefined
              None None in
  let created :=
    app POST_users (mkEnv Samples.task_id 0) Samples.store_ana bob in
  app GET_users_id (mkEnv "" 0) created.1 (Samples.bare None Samples.task_id)
  = (created.1,
     mkResponse 200
       (PUser (mkUserJSON Samples.task_id (JStr "Bob") (JStr "bob") false []))).
Proof.
  intros bob created.
  pose proof (post_users_then_get_user (mkEnv Samples.task_id 0) (mkEnv "" 0)
                Samples.store_ana bob (Samples.bare None Samples.task_id))
    as H.
  cbv zeta in H. apply H.
  - intros u Hu. apply list_elem_of_singleton in Hu. by subst u.
  - intros u Hu. apply list_elem_of_singleton in Hu. by subst u.
  - reflexivity.
Defined.

(** X10: upgrading composes with the other two user routes.  After a
    successful [PATCH /users/:id/pro], the same request again is
    answered 400 "Pro plan is already activated." and changes nothing,
    and [GET /users/:id] shows the user with [pro] set and everything
    else as before. *)
Theorem upgrade_then_again (env env' : Env) (st : Store) (request : Request)
    (i : nat) (user : User) :
  is_user_by_id st (params_id request) i user →
  u_pro user = false →
  let st1 := (app PATCH_users_id_pro env st request).1 in
  app PATCH_users_id_pro env' st1 request
    = (st1, error_response 400 "Pro plan is already activated.") ∧
  app GET_users_id env' st1 request
    = (st1,
       mkResponse 200
         (PUser (mkUserJSON (u_id user) (u_name user) (u_username user) true
                            (todos_of st user)))).
Proof.
  intros Hid Hpro st1.
  pose proof (is_user_by_id_user_at _ _ _ _ Hid) as Hat.
  assert (st1 = with_users (<[i := set_pro true user]> (users st)) st) as ->.
  { unfold st1, app, pipeline, findUserById.
    apply user_by_id_found in Hid. rewrite Hid.
    unfold patch_user_pro. read_request. by rewrite Hat, Hpro. }
  set (st1 := with_users _ st).
  pose proof (is_user_by_id_insert st st1 _ i user (set_pro true user)
                Hid eq_refl eq_refl) as Hid1.
  pose proof (is_user_by_id_user_at _ _ _ _ Hid1) as Hat1.
  apply user_by_id_found in Hid1.
  unfold app, pipeline, findUserById. rewrite Hid1.
  unfold patch_user_pro, get_user. read_request. rewrite Hat1.
  split; reflexivity.
Qed.

Lemma upgrade_then_again_witness :
  let request := Samples.bare None Samples.ana_id in
  let st1 :=
    (app PATCH_users_id_pro (mkEnv "" 0) Samples.store_ana request).1 in
  app PATCH_users_id_pro (mkEnv "" 1) st1 request
  = (st1, error_response 400 "Pro plan is already activated.").
Proof.
  intros request st1.
  assert (is_user_by_id Samples.store_ana (params_id request) 0
            (mkUser Samples.ana_id (JStr "Ana") (JStr "ana") false [])) as H.
  { split; [reflexivity|]. split; [reflexivity|]. intros j u _ Hj. lia. }
  pose proof (upgrade_then_again (mkEnv "" 0) (mkEnv "" 1) Samples.store_ana
                request 0 _ H eq_refl) as Hup.
  cbv zeta in Hup. by destruct Hup as (Hagain & _).
Defined.

(** ** Each task belongs to one user *)

Lemma tasks_exclusive_insert (st st' : Store) (k : nat) (u' : User) :
  users st' = <[k := u']> (users st) →
  (∀ l, l ∈ u_todos u' →
        (∀ uk, users st !! k = Some uk → l ∈ u_todos uk) ∨
        (∀ j uj, users st !! j = Some uj → l ∉ u_todos uj)) →
  tasks_exclusive st → tasks_exclusive st'.
Proof.
  intros Hus Hnew Hex i j ui uj l Hi Hj Hli Hlj.
  rewrite Hus in Hi, Hj.
  apply list_lookup_insert_Some in Hi as [(-> & <- & Hlen)|(Hik & Hi)];
    apply list_lookup_insert_Some in Hj as [(-> & <- & Hlen')|(Hjk & Hj)].
  - done.
  - destruct (lookup_lt_is_Some_2 _ _ Hlen) as [uk Hk].
    destruct (Hnew l Hli) as [Hold|Hfresh].
    + by apply (Hex i j uk uj l Hk Hj (Hold uk Hk)).
    + by destruct (Hfresh j uj Hj).
  - destruct (lookup_lt_is_Some_2 _ _ Hlen') as [uk Hk].
    destruct (Hnew l Hlj) as [Hold|Hfresh].
    + by apply (Hex i j ui uk l Hi Hk Hli (Hold uk Hk)).
    + by destruct (Hfresh i ui Hi).
  - by apply (Hex i j ui uj l).
Qed.

Lemma user_at_lookup st k uk :
  users st !! k = Some uk → user_at st k = uk.
Proof. intros H. unfold user_at. by apply list_lookup_total_correct. Qed.

Lemma serve_tasks_exclusive (st : Store) (c : Call) :
  todos_owned st → tasks_exclusive st → tasks_exclusive (serve st c).1.
Proof.
  unfold serve.
  apply (app_related
           (λ st st', todos_owned st → tasks_exclusive st →
                      tasks_exclusive st')); clear.
  - done.
  - intros env st r _ Hex. unfold post_users.
    destruct (existsb _ (users st)); simpl; [done|].
    intros i j ui uj l Hi Hj Hli Hlj. simpl in Hi, Hj.
    apply lookup_snoc_Some in Hi as [[_ Hi]|[_ <-]];
      apply lookup_snoc_Some in Hj as [[_ Hj]|[_ <-]];
      try (by apply elem_of_nil in Hli); try (by apply elem_of_nil in Hlj).
    by apply (Hex i j ui uj l).
  - intros env st r _ Hex. unfold patch_user_pro.
    destruct (req_user r) as [k|]; [|done].
    destruct (u_pro (user_at st k)); [done|]. simpl.
    eapply tasks_exclusive_insert; [reflexivity| |done].
    intros l Hl. left. intros uk Hk.
    by rewrite (user_at_lookup _ _ _ Hk) in Hl.
  - intros env st r Hown Hex. unfold post_todos.
    destruct (new_Date (body_deadline r)) as [date|]; [|done].
    destruct (req_user r) as [k|]; [|done]. simpl.
    eapply tasks_exclusive_insert; [reflexivity| |done].
    intros l [Hl| ->%list_elem_of_singleton]%elem_of_app.
    + left. intros uk Hk. by rewrite (user_at_lookup _ _ _ Hk) in Hl.
    + right. intros j uj Hj Hin.
      unfold todos_owned in Hown. rewrite Forall_lookup in Hown.
      destruct (Hown j uj Hj) as [_ Hdom].
      by apply (is_fresh (dom (heap st))), Hdom.
  - intros env st r _ Hex. unfold put_todo.
    destruct (req_todo r); [|done]. by destruct (new_Date (body_deadline r)).
  - intros env st r _ Hex. unfold patch_todo_done. by destruct (req_todo r).
  - intros env st r _ Hex. unfold delete_todo.
    destruct (req_user r) as [k|]; [|done].
    destruct (match req_todo r with Some l => _ | None => _ end) as [d|];
      [|done].
    simpl. eapply tasks_exclusive_insert; [reflexivity| |done].
    intros l Hl. left. intros uk Hk. rewrite <- (user_at_lookup _ _ _ Hk).
    eapply elem_of_sublist; [exact Hl|apply sublist_delete].
Qed.

Lemma reachable_tasks_exclusive (st : Store) :
  reachable st → tasks_exclusive st.
Proof.
  induction 1 as [|st c Hst IH].
  - intros i j ui uj l Hi. done.
  - apply serve_tasks_exclusive; [by apply reachable_todos_owned|done].
Qed.

(** X11: starting from the empty store, after any sequence of
    requests, a task object sits in the [todos] array of one user only,
    and at one position of it. *)
Theorem task_has_one_place (cs : list Call) (i j : nat) (ui uj : User)
    (a b : nat) (l : loc) :
  let st := (serve_all empty_store cs).1 in
  users st !! i = Some ui → users st !! j = Some uj →
  u_todos ui !! a = Some l → u_todos uj !! b = Some l →
  i = j ∧ a = b.
Proof.
  intros st Hi Hj Ha Hb.
  assert (reachable st) as Hreach.
  { apply reachable_serve_all. constructor. }
  assert (i = j) as <-.
  { apply (reachable_tasks_exclusive st Hreach i j ui uj l Hi Hj).
    - by apply (list_elem_of_lookup_2 _ a).
    - by apply (list_elem_of_lookup_2 _ b). }
  split; [done|]. assert (uj = ui) as -> by congruence.
  pose proof (reachable_todos_owned st Hreach) as Hown.
  unfold todos_owned in Hown. rewrite Forall_lookup in Hown.
  destruct (Hown i ui Hi) as [Hnd _].
  by apply (NoDup_lookup (u_todos ui) a b l).
Qed.

Lemma task_has_one_place_witness :
  (0 = 0 ∧ 1 = 1)%nat.
Proof.
  apply (task_has_one_place
           [Samples.create_ana; Samples.add_task Samples.task_id "x";
            Samples.add_task Samples.other_task_id "y"]
           0 0
           (mkUser Samples.ana_id (JStr "Ana") (JStr "ana") false
                   [1%positive; 2%positive])
           (mkUser Samples.ana_id (JStr "Ana") (JStr "ana") false
                   [1%positive; 2%positive])
           1 1 2%positive);
    vm_compute; reflexivity.
Defined.

(** ** Creating a task and reading it back *)

Lemma is_account_users st st' username i user u' :
  is_account st username i user →
  users st' = <[i := u']> (users st) →
  u_username u' = u_username user →
  is_account st' username i u'.
Proof.
  intros (Hl & Heq & Hmin) Hus Hu. unfold is_account. rewrite Hus.
  split; [|split].
  - apply list_lookup_insert_eq. by apply lookup_lt_Some in Hl.
  - by rewrite Hu.
  - intros j u Hj Hlt. rewrite list_lookup_insert_ne in Hj by lia.
    by apply (Hmin j).
Qed.

Lemma todos_of_ext (st st' : Store) (u : User) :
  (∀ l, l ∈ u_todos u → todo_at st' l = todo_at st l) →
  todos_of st' u = todos_of st u.
Proof.
  intros H. unfold todos_of. apply list_fmap_ext. intros k l Hk.
  apply H. by apply (list_elem_of_lookup_2 _ k).
Qed.

(** A store a request has allocated a task in reads the older tasks as
    before. *)
Lemma todo_at_alloc (st : Store) (us : list User) (t : Todo) (l : loc) :
  l ∈ dom (heap st) →
  todo_at (mkStore us (<[fresh (dom (heap st)) := t]> (heap st))) l
  = todo_at st l.
Proof.
  intros Hl. unfold todo_at. simpl. apply lookup_total_insert_ne.
  intros <-. by apply (is_fresh (dom (heap st))).
Qed.

Lemma owned_account (st : Store) username i user :
  reachable st → is_account st username i user → owned (heap st) user.
Proof.
  intros Hreach Hacc. rewrite <- (is_account_user_at _ _ _ _ Hacc).
  by apply owned_user_at, reachable_todos_owned.
Qed.

(** What [POST /todos] does once the account is found, the quota
    guard lets the request through and [new Date(deadline)] returns. *)
Lemma post_todos_accepted (env : Env) (st : Store) (request : Request)
    (i : nat) (user : User) :
  is_account st (header_value (headers_username request)) i user →
  (length (u_todos user) <? 10)%nat || u_pro user = true →
  to_primitive_throws (body_deadline request) = false →
  let created :=
    mkTodo (uuidv4 env) (body_title request) (DateOf (body_deadline request))
           false (DateNow (now env)) in
  let l := fresh (dom (heap st)) in
  app POST_todos env st request
  = (mkStore (<[i := set_todos (u_todos user ++ [l]) user]> (users st))
             (<[l := created]> (heap st)),
     mkResponse 201 (PTodo created)).
Proof.
  intros Hacc Hok Hdate created l.
  rewrite (post_todos_result env st request i user Hacc). cbv zeta.
  by rewrite Hok, Hdate.
Qed.

(** The only way to a 201 from [POST /todos]: the account exists, the
    quota guard lets the request through and [new Date(deadline)]
    returns. *)
Lemma post_todos_created (env : Env) (st : Store) (request : Request) :
  status (app POST_todos env st request).2 = 201 →
  ∃ i user,
    is_account st (header_value (headers_username request)) i user ∧
    (length (u_todos user) <? 10)%nat || u_pro user = true ∧
    to_primitive_throws (body_deadline request) = false.
Proof.
  destruct (checksExistsUserAccount_cases st request)
    as [Hsend|(i & user & Hacc & _)].
  - unfold app, pipeline. by rewrite Hsend.
  - rewrite (post_todos_result env st request i user Hacc). cbv zeta.
    intros Hstatus. exists i, user. split; [done|].
    destruct ((length (u_todos user) <? 10)%nat || u_pro user); [|done].
    by destruct (to_primitive_throws (body_deadline request)).
Qed.

Lemma get_todos_found (env : Env) (st : Store) (request : Request)
    (i : nat) (user : User) :
  is_account st (header_value (headers_username request)) i user →
  app GET_todos env st request
  = (st, mkResponse 200 (PTodos (todos_of st user))).
Proof.
  intros Hacc. pose proof (is_account_user_at _ _ _ _ Hacc) as Hat.
  apply account_found in Hacc.
  unfold app, pipeline, checksExistsUserAccount. rewrite Hacc.
  unfold get_todos. read_request. by rewrite Hat.
Qed.

(** X12: when [POST /todos] is answered 201, the task it has created
    is the last entry of the list [GET /todos] returns next for the same
    [username] header; the entries before it are the list as it was. *)
Theorem post_todos_then_get_todos (env env' : Env) (st : Store)
    (request request' : Request) :
  reachable st →
  headers_username request' = headers_username request →
  let posted := app POST_todos env st request in
  status posted.2 = 201 →
  ∃ i user,
    is_account st (header_value (headers_username request)) i user ∧
    let created :=
      mkTodo (uuidv4 env) (body_title request)
             (DateOf (body_deadline request)) false (DateNow (now env)) in
    posted.2 = mkResponse 201 (PTodo created) ∧
    app GET_todos env' posted.1 request'
      = (posted.1, mkResponse 200 (PTodos (todos_of st user ++ [created]))).
Proof.
  intros Hreach Hh posted Hstatus.
  destruct (post_todos_created env st request Hstatus)
    as (i & user & Hacc & Hok & Hdate).
  exists i, user. split; [done|]. intros created.
  unfold posted.
  rewrite (post_todos_accepted env st request i user Hacc Hok Hdate).
  split; [reflexivity|]. cbn [fst snd].
  set (l := fresh (dom (heap st))).
  set (st1 := mkStore _ _).
  destruct (owned_account st _ i user Hreach Hacc) as [_ Hdom].
  assert (is_account st1 (header_value (headers_username request')) i
            (set_todos (u_todos user ++ [l]) user)) as Hacc1.
  { rewrite Hh. by apply (is_account_users st st1 _ i user). }
  rewrite (get_todos_found env' st1 request' i _ Hacc1).
  f_equal. f_equal. f_equal. unfold todos_of. simpl.
  rewrite fmap_app. simpl. f_equal.
  - apply list_fmap_ext. intros k l' Hk. apply todo_at_alloc, Hdom.
    by apply (list_elem_of_lookup_2 _ k).
  - f_equal. apply todo_at_insert.
Qed.

Lemma post_todos_then_get_todos_witness :
  let request :=
    mkRequest (Some "ana") "" JUndefined JUndefined (JStr "z") JNull
              None None in
  let posted :=
    app POST_todos (mkEnv Samples.ana_id 5) Samples.store_tasks request in
  ∃ i user,
    is_account Samples.store_tasks (JStr "ana") i user ∧
    (app GET_todos (mkEnv "" 0) posted.1 (Samples.bare (Some "ana") "")).2
    = mkResponse 200
        (PTodos
           (todos_of Samples.store_tasks user ++
            [mkTodo Samples.ana_id (JStr "z") (DateOf JNull) false
                    (DateNow 5)])).
Proof.
  intros request posted.
  assert (reachable Samples.store_tasks) as Hreach.
  { apply reachable_serve_all, reachable_start. }
  pose proof (post_todos_then_get_todos (mkEnv Samples.ana_id 5) (mkEnv "" 0)
                Samples.store_tasks request (Samples.bare (Some "ana") "")
                Hreach eq_refl) as H.
  cbv zeta in H.
  destruct H as (i & user & Hacc & _ & Hget); [vm_compute; reflexivity|].
  exists i, user. split; [exact Hacc|].
  unfold posted. by rewrite Hget.
Defined.

Lemma is_account_same_users st st' username i user :
  users st' = users st →
  is_account st username i user → is_account st' username i user.
Proof. unfold is_account. by intros ->. Qed.

Lemma attach_matching_overwritten st i id todos r l :
  attach_todo l (attach_user i (attach_matching st i id todos r))
  = attach_todo l (attach_user i r).
Proof.
  destruct (attach_matching_cases st i id todos r)
    as [[_ ->]|(b & l' & a & _ & _ & _ & ->)]; reflexivity.
Qed.

Lemma set_todos_back (user : User) (ts : list loc) :
  set_todos (u_todos user) (set_todos ts user) = user.
Proof. by destruct user. Qed.

Lemma indexOf_snoc_fresh (ts : list loc) (l : loc) :
  l ∉ ts → indexOf (ts ++ [l]) l = Some (length ts).
Proof.
  intros Hl. apply indexOf_Some. split; [by apply list_lookup_middle|].
  intros j Hj Hlook. rewrite lookup_app_l in Hlook by done.
  by apply Hl, (list_elem_of_lookup_2 _ j).
Qed.

(** X13: creating a task and deleting it by the id the creation
    returned undoes the creation.  When [POST /todos] is answered 201,
    the [DELETE /todos/:id] that follows is answered 204, the array
    [users] is again what it was before the [POST /todos], and
    [GET /todos] returns the list it returned before.  The guard needs
    the generated id to pass [validate], which an id from [uuidv4()]
    does. *)
Theorem post_todos_then_delete (env env' : Env) (st : Store)
    (request request' : Request) :
  reachable st →
  validate (uuidv4 env) = true →
  headers_username request' = headers_username request →
  params_id request' = uuidv4 env →
  let posted := app POST_todos env st request in
  status posted.2 = 201 →
  ∃ i user,
    is_account st (header_value (headers_username request)) i user ∧
    let deleted := app DELETE_todos_id env' posted.1 request' in
    deleted.2 = mkResponse 204 PEmpty ∧
    users deleted.1 = users st ∧
    app GET_todos env' deleted.1 request'
      = (deleted.1, mkResponse 200 (PTodos (todos_of st user))).
Proof.
  intros Hreach Hval Hh Hparam posted Hstatus.
  destruct (post_todos_created env st request Hstatus)
    as (i & user & Hacc & Hok & Hdate).
  exists i, user. split; [done|]. intros deleted.
  destruct (owned_account st _ i user Hreach Hacc) as [_ Hdom].
  pose proof Hacc as (Hlook & _).
  unfold deleted, posted.
  rewrite (post_todos_accepted env st request i user Hacc Hok Hdate).
  cbn [fst]. clear posted Hstatus deleted.
  set (l := fresh (dom (heap st))).
  set (created := mkTodo _ _ _ _ _).
  set (u1 := set_todos (u_todos user ++ [l]) user).
  set (st1 := mkStore _ _).
  assert (l ∉ u_todos user) as Hfresh.
  { intros Hin. by apply (is_fresh (dom (heap st))), Hdom. }
  assert (is_account st1 (header_value (headers_username request')) i u1)
    as Hacc1.
  { rewrite Hh. by apply (is_account_users st st1 _ i user). }
  pose proof (is_account_user_at _ _ _ _ Hacc1) as Hat1.
  assert (todo_at st1 l = created) as Hnew by apply todo_at_insert.
  assert (checksTodoExists st1 (attach_user i request')
          = Next (attach_todo l (attach_user i request'))) as Hguard.
  { unfold checksTodoExists. read_request. rewrite Hparam, Hval. simpl negb.
    cbn iota. apply account_found in Hacc1. rewrite Hacc1.
    assert (String.eqb (t_id (todo_at st1 l)) (uuidv4 env) = true) as Hid.
    { rewrite Hnew. apply String.eqb_refl. }
    assert (existsb (λ l0, String.eqb (t_id (todo_at st1 l0)) (uuidv4 env))
                    (u_todos u1) = true) as ->.
    { unfold u1. simpl. rewrite existsb_app. simpl.
      by rewrite Hid, orb_true_r. }
    f_equal. unfold u1. cbn [u_todos set_todos].
    unfold attach_matching. rewrite fold_left_app. simpl. rewrite Hid.
    exact (attach_matching_overwritten st1 i (uuidv4 env) (u_todos user)
             (attach_user i request') l). }
  assert (app DELETE_todos_id env' st1 request'
          = (with_users (<[i := user]> (users st1)) st1,
             mkResponse 204 PEmpty)) as ->.
  { unfold app, pipeline, checksExistsUserAccount.
    apply account_found in Hacc1. rewrite Hacc1, Hguard.
    unfold delete_todo. read_request. rewrite Hat1.
    change (u_todos u1) with (u_todos user ++ [l]).
    rewrite (indexOf_snoc_fresh _ _ Hfresh). unfold splice1.
    rewrite delete_middle, app_nil_r. unfold u1.
    by rewrite set_todos_back. }
  cbn [fst snd].
  assert (users (with_users (<[i := user]> (users st1)) st1) = users st)
    as Husers.
  { simpl. rewrite list_insert_insert_eq. by apply list_insert_id. }
  split; [reflexivity|]. split; [exact Husers|].
  rewrite (get_todos_found env' _ request' i user).
  - f_equal. f_equal. f_equal. apply todos_of_ext. intros l' Hl'.
    apply todo_at_alloc. by apply Hdom.
  - rewrite Hh. by apply (is_account_same_users st).
Qed.

Lemma post_todos_then_delete_witness :
  let request := Samples.bare (Some "ana") "" in
  let posted :=
    app POST_todos (mkEnv Samples.ana_id 5) Samples.store_tasks request in
  let deleted :=
    app DELETE_todos_id (mkEnv "" 0) posted.1
        (Samples.bare (Some "ana") Samples.ana_id) in
  deleted.2 = mkResponse 204 PEmpty ∧
  users deleted.1 = users Samples.store_tasks.
Proof.
  intros request posted deleted.
  assert (reachable Samples.store_tasks) as Hreach.
  { apply reachable_serve_all, reachable_start. }
  pose proof (post_todos_then_delete (mkEnv Samples.ana_id 5) (mkEnv "" 0)
                Samples.store_tasks request
                (Samples.bare (Some "ana") Samples.ana_id)
                Hreach) as H.
  cbv zeta in H.
  destruct H as (i & user & _ & H204 & Hus & _);
    [vm_compute; reflexivity|reflexivity..|vm_compute; reflexivity|].
  by split.
Defined.

(** ** Updates of a task object *)

Lemma existsb_pointwise {A : Type} (f g : A → bool) (l : list A) :
  (∀ x, f x = g x) → existsb f l = existsb g l.
Proof. intros H. induction l as [|x l IH]; simpl; [done|]. by rewrite H, IH. Qed.

Lemma attach_matching_ext st st' i id todos r :
  (∀ l, t_id (todo_at st' l) = t_id (todo_at st l)) →
  attach_matching st' i id todos r = attach_matching st i id todos r.
Proof.
  intros H. unfold attach_matching. revert r.
  induction todos as [|x todos IH]; intros r; simpl; [done|].
  by rewrite H, IH.
Qed.

(** [checksTodoExists] reads the array [users] and the ids of the task
    objects, nothing else of the store. *)
Lemma checksTodoExists_ext st st' request :
  users st' = users st →
  (∀ l, t_id (todo_at st' l) = t_id (todo_at st l)) →
  checksTodoExists st' request = checksTodoExists st request.
Proof.
  intros Hus Hid. unfold checksTodoExists. rewrite Hus.
  destruct (validate (params_id request)); simpl; [|done].
  destruct (first_match _ (users st)) as [[i account]|]; [|done].
  rewrite (existsb_pointwise _
             (λ l, String.eqb (t_id (todo_at st l)) (params_id request)))
    by (intros l; by rewrite Hid).
  by rewrite (attach_matching_ext st st').
Qed.

Lemma t_id_after_write (st : Store) (l l' : loc) (t' : Todo) :
  t_id t' = t_id (todo_at st l) →
  t_id (todo_at (with_heap (<[l := t']> (heap st)) st) l')
  = t_id (todo_at st l').
Proof.
  intros Hid. unfold todo_at. simpl.
  destruct (decide (l = l')) as [<-|Hne].
  - by rewrite lookup_total_insert_eq.
  - by rewrite lookup_total_insert_ne.
Qed.

(** X14: marking a task done is idempotent.  When a
    [PATCH /todos/:id/done] request passes the guard, sending it again
    gives the same response and leaves the store as the first one left
    it. *)
Theorem patch_todo_done_idempotent (env env' : Env) (st : Store)
    (request r : Request) :
  checksTodoExists st request = Next r →
  let once := app PATCH_todos_id_done env st request in
  app PATCH_todos_id_done env' once.1 request = once.
Proof.
  intros H once.
  assert (∃ l, req_todo r = Some l) as [l Hl].
  { apply checksTodoExists_Next in H
      as (_ & i & u & b & l & a & _ & _ & _ & _ & ->). by exists l. }
  set (t := set_done true (todo_at st l)).
  set (st1 := with_heap (<[l := t]> (heap st)) st).
  assert (once = (st1, mkResponse 200 (PTodo t))) as ->.
  { unfold once, app, pipeline. rewrite H. unfold patch_todo_done.
    rewrite Hl. f_equal. f_equal. f_equal.
    unfold todo_at at 1. simpl. by rewrite lookup_total_insert_eq. }
  cbn [fst].
  assert (checksTodoExists st1 request = Next r) as H1.
  { rewrite <- H. apply checksTodoExists_ext; [done|].
    intros l'. by apply t_id_after_write. }
  unfold app, pipeline. rewrite H1. unfold patch_todo_done. rewrite Hl.
  assert (todo_at st1 l = t) as Ht.
  { unfold todo_at, st1. simpl. by rewrite lookup_total_insert_eq. }
  assert (with_heap (<[l := set_done true (todo_at st1 l)]> (heap st1)) st1
          = st1) as Hst.
  { rewrite Ht. unfold st1, with_heap. simpl. f_equal.
    by rewrite insert_insert_eq. }
  by rewrite Hst, Ht.
Qed.

Lemma patch_todo_done_idempotent_witness :
  let request := Samples.bare (Some "ana") Samples.task_id in
  let once :=
    app PATCH_todos_id_done (mkEnv "" 0) Samples.store_tasks request in
  app PATCH_todos_id_done (mkEnv "" 1) once.1 request = once.
Proof.
  intros request once.
  exact (patch_todo_done_idempotent (mkEnv "" 0) (mkEnv "" 1)
           Samples.store_tasks request
           (attach_todo 1%positive (attach_user 0 request)) eq_refl).
Defined.



Lemma task_persists_refl (t : Todo) : task_persists t t.
Proof. by repeat split. Qed.

(** X16: no request changes the id or the creation date of a task
    object, or clears its [done] flag once set. *)
Theorem serve_keeps_tasks (st : Store) (c : Call) (l : loc) (t : Todo) :
  heap st !! l = Some t →
  ∃ t', heap (serve st c).1 !! l = Some t' ∧ task_persists t t'.
Proof.
  revert l t. unfold serve.
  apply (app_related
           (λ st st', ∀ l t, heap st !! l = Some t →
                             ∃ t', heap st' !! l = Some t' ∧
                                   task_persists t t')); clear.
  - intros st l t Hl. exists t. split; [done|apply task_persists_refl].
  - intros env st r l t Hl. exists t. split; [|apply task_persists_refl].
    unfold post_users. by destruct (existsb _ (users st)).
  - intros env st r l t Hl. exists t. split; [|apply task_persists_refl].
    unfold patch_user_pro. destruct (req_user r) as [k|]; [|done].
    by destruct (u_pro (user_at st k)).
  - intros env st r l t Hl. exists t. split; [|apply task_persists_refl].
    unfold post_todos.
    destruct (new_Date (body_deadline r)) as [date|]; [|done].
    destruct (req_user r) as [k|]; [|done]. simpl.
    rewrite lookup_insert_ne; [done|].
    intros Heq. apply (is_fresh (dom (heap st))). rewrite Heq.
    apply elem_of_dom. by eexists.
  - intros env st r l t Hl. unfold put_todo.
    destruct (req_todo r) as [l0|];
      [|exists t; split; [done|apply task_persists_refl]].
    destruct (new_Date (body_deadline r)) as [date|]; simpl;
      (destruct (decide (l0 = l)) as [->|Hne];
       [|exists t; split; [by rewrite ?lookup_insert_ne by done
                          |apply task_persists_refl]]).
    + eexists. split; [by rewrite lookup_insert_eq|].
      unfold todo_at. simpl. rewrite lookup_total_insert_eq.
      rewrite (lookup_total_correct _ _ _ Hl). by repeat split.
    + eexists. split; [by rewrite lookup_insert_eq|].
      unfold todo_at. rewrite (lookup_total_correct _ _ _ Hl).
      by repeat split.
  - intros env st r l t Hl. unfold patch_todo_done.
    destruct (req_todo r) as [l0|];
      [|exists t; split; [done|apply task_persists_refl]].
    simpl. destruct (decide (l0 = l)) as [->|Hne].
    + eexists. split; [by rewrite lookup_insert_eq|].
      unfold todo_at. rewrite (lookup_total_correct _ _ _ Hl).
      by repeat split.
    + exists t. split; [|apply task_persists_refl].
      by rewrite lookup_insert_ne.
  - intros env st r l t Hl. exists t. split; [|apply task_persists_refl].
    unfold delete_todo. destruct (req_user r) as [k|]; [|done].
    by destruct (match req_todo r with Some l => _ | None => _ end).
Qed.

Lemma serve_keeps_tasks_witness :
  ∃ t', heap (serve Samples.store_tasks
                (mkCall PATCH_todos_id_done (mkEnv "" 0)
                   (Samples.bare (Some "ana") Samples.task_id))).1
          !! 1%positive = Some t' ∧
        task_persists
          (mkTodo Samples.task_id (JStr "x") (DateOf (JStr "2030-01-01"))
                  false (DateNow 1000)) t'.
Proof.
  apply (serve_keeps_tasks Samples.store_tasks). vm_compute. reflexivity.
Defined.

(** ** Users do not touch each other's tasks *)

Lemma todos_of_same_heap (st st' : Store) (u : User) :
  heap st' = heap st → todos_of st' u = todos_of st u.
Proof. intros H. unfold todos_of, todo_at. by rewrite H. Qed.

Lemma untouched_by_insert (st st' : Store) (k j : nat) (u u'' : User) :
  users st' = <[k := u'']> (users st) →
  heap st' = heap st →
  u_todos u'' = u_todos (user_at st k) →
  users st !! j = Some u →
  ∃ u', users st' !! j = Some u' ∧ u_todos u' = u_todos u ∧
        todos_of st' u' = todos_of st u.
Proof.
  intros Hus Hheap Htodos Hj. destruct (decide (k = j)) as [->|Hne].
  - exists u''. rewrite Hus. split.
    + apply list_lookup_insert_eq. by apply lookup_lt_Some in Hj.
    + rewrite (user_at_lookup _ _ _ Hj) in Htodos. split; [done|].
      unfold todos_of, todo_at. by rewrite Htodos, Hheap.
  - exists u. rewrite Hus. split; [by rewrite list_lookup_insert_ne|].
    split; [done|by apply todos_of_same_heap].
Qed.

Lemma untouched_same (st : Store) (j : nat) (u : User) :
  users st !! j = Some u →
  ∃ u', users st !! j = Some u' ∧ u_todos u' = u_todos u ∧
        todos_of st u' = todos_of st u.
Proof. intros Hj. by exists u. Qed.

Lemma is_account_unique st username i user i' user' :
  is_account st username i user → is_account st username i' user' →
  i = i' ∧ user = user'.
Proof.
  intros H H'. apply account_found in H, H'.
  rewrite H in H'. by injection H' as -> ->.
Qed.

Lemma other_index st username i account j u :
  is_account st username i account →
  users st !! j = Some u →
  ¬ is_account st username j u →
  i ≠ j.
Proof.
  intros Hacc Hj Hnot ->. apply Hnot.
  destruct Hacc as (Hi & ?). by assert (u = account) as -> by congruence.
Qed.

(** X17: a request leaves alone the tasks of every user other than the
    one its [username] header names: such a user keeps the same
    [todos] array and [GET /todos] would return for it what it returned
    before, whatever the route and whatever the outcome. *)
Theorem other_users_untouched (st : Store) (c : Call) (j : nat) (u : User) :
  reachable st →
  users st !! j = Some u →
  ¬ is_account st (header_value (headers_username (call_request c))) j u →
  ∃ u', users (serve st c).1 !! j = Some u' ∧
        u_todos u' = u_todos u ∧
        todos_of (serve st c).1 u' = todos_of st u.
Proof.
  intros Hreach Hj Hnot.
  pose proof (reachable_todos_owned st Hreach) as Hown.
  pose proof (reachable_tasks_exclusive st Hreach) as Hex.
  assert (owned (heap st) u) as [_ Hdom].
  { unfold todos_owned in Hown. rewrite Forall_lookup in Hown.
    by apply (Hown j). }
  unfold serve.
  change (headers_username (call_request c))
    with (headers_username (incoming (call_request c))) in Hnot.
  generalize dependent (incoming (call_request c)).
  generalize (call_env c) as env. intros env request Hnot.
  destruct (call_route c); unfold app, pipeline.
  - unfold post_users. destruct (existsb _ (users st)); simpl;
      [by apply untouched_same|].
    exists u. split; [by apply lookup_app_l_Some|done].
  - destruct (findUserById st request) as [r|]; [|by apply untouched_same].
    unfold get_user. by destruct (req_user r); apply untouched_same.
  - destruct (findUserById st request) as [r|]; [|by apply untouched_same].
    unfold patch_user_pro.
    destruct (req_user r) as [k|]; [|by apply untouched_same].
    destruct (u_pro (user_at st k)); [by apply untouched_same|].
    by apply (untouched_by_insert st _ k j u (set_pro true (user_at st k))).
  - destruct (checksExistsUserAccount st request) as [r|];
      [|by apply untouched_same].
    unfold get_todos. by destruct (req_user r); apply untouched_same.
  - destruct (checksExistsUserAccount_cases st request)
      as [->|(i & account & Hacc & ->)]; [by apply untouched_same|].
    pose proof (other_index _ _ _ _ _ _ Hacc Hj Hnot) as Hne.
    unfold checksCreateTodosUserAvailability. read_request.
    destruct (_ || _); [|by apply untouched_same].
    unfold post_todos. read_request.
    destruct (new_Date (body_deadline request)); [|by apply untouched_same].
    cbn [fst].
    exists u. split; [by simpl; rewrite list_lookup_insert_ne|].
    split; [done|]. apply todos_of_ext. intros l Hl.
    by apply todo_at_alloc, Hdom.
  - destruct (checksTodoExists_cases st request)
      as [(msg & code & _ & ->)|(i & account & l & Hacc & Hl & ->)];
      [by apply untouched_same|].
    pose proof (other_index _ _ _ _ _ _ Hacc Hj Hnot) as Hne.
    rewrite (put_todo_result env st (attach_todo l (attach_user i request))
               l eq_refl).
    cbv zeta. destruct (to_primitive_throws _); cbn [fst];
      (exists u; split; [done|]; split; [done|];
       apply todos_of_ext; intros l' Hl'; unfold todo_at; simpl;
       destruct Hacc as (Hi & _);
       assert (l ≠ l') as Hll
         by (intros <-; by apply Hne, (Hex i j account u l));
       by rewrite !lookup_total_insert_ne).
  - destruct (checksTodoExists_cases st request)
      as [(msg & code & _ & ->)|(i & account & l & Hacc & Hl & ->)];
      [by apply untouched_same|].
    pose proof (other_index _ _ _ _ _ _ Hacc Hj Hnot) as Hne.
    unfold patch_todo_done. read_request. cbn [fst].
    exists u. split; [done|]. split; [done|].
    apply todos_of_ext. intros l' Hl'. unfold todo_at. simpl.
    destruct Hacc as (Hi & _).
    assert (l ≠ l') as Hll.
    { intros <-. by apply Hne, (Hex i j account u l). }
    by rewrite lookup_total_insert_ne.
  - destruct (checksExistsUserAccount_cases st request)
      as [->|(i & account & Hacc & ->)]; [by apply untouched_same|].
    pose proof (other_index _ _ _ _ _ _ Hacc Hj Hnot) as Hne.
    destruct (checksTodoExists st (attach_user i request)) as [r2|] eqn:E2;
      [|by apply untouched_same].
    apply checksTodoExists_Next in E2
      as (_ & i' & account' & b & l & a & Hacc' & _ & _ & _ & ->).
    read_request in Hacc'.
    destruct (is_account_unique _ _ _ _ _ _ Hacc Hacc') as [<- <-].
    unfold delete_todo. read_request.
    destruct (indexOf _ l); [|by apply untouched_same].
    cbn [fst]. exists u.
    split; [by simpl; rewrite list_lookup_insert_ne|done].
Qed.

Lemma other_users_untouched_witness :
  let c :=
    mkCall DELETE_todos_id (mkEnv "" 0)
      (Samples.bare (Some "ana") Samples.task_id) in
  ∃ u', users (serve Samples.store_two c).1 !! 1%nat = Some u' ∧
        u_todos u' = u_todos Samples.bob ∧
        todos_of (serve Samples.store_two c).1 u'
        = todos_of Samples.store_two Samples.bob.
Proof.
  intros c. apply other_users_untouched.
  - apply reachable_serve_all, reachable_start.
  - vm_compute. reflexivity.
  - intros (_ & Heq & _). vm_compute in Heq. discriminate.
Defined.

(** ** The [username] header *)

Lemma strict_eq_header (x : jsval) (h : option string) :
  strict_eq x (header_value h) = true ↔ x = header_value h.
Proof.
  destruct h as [s|], x; simpl; split; try congruence.
  - by intros ->%String.eqb_eq.
  - intros [= ->]. apply String.eqb_refl.
Qed.

(** X18: [checksExistsUserAccount] lets a request through exactly when
    some user's username is the value of the [username] header, an
    absent header counting as [undefined]: a request without the header
    is let through exactly when a user was registered without a
    username. *)
Theorem header_lookup_is_exact (st : Store) (request : Request) :
  (∃ r, checksExistsUserAccount st request = Next r) ↔
  ∃ user, user ∈ users st ∧
          u_username user = header_value (headers_username request).
Proof.
  split.
  - intros [r Hr].
    apply checksExistsUserAccount_Next in Hr as (i & user & Hacc & _).
    destruct Hacc as (Hi & Heq & _). exists user. split.
    + by apply (list_elem_of_lookup_2 _ i).
    + by apply strict_eq_header.
  - intros (user & Hin & Heq).
    destruct (checksExistsUserAccount_cases st request)
      as [Hsend|(i & u & _ & Hnext)]; [|by eexists].
    exfalso. revert Hsend. unfold checksExistsUserAccount.
    destruct (first_match _ (users st)) as [[i u]|] eqn:E; [done|].
    intros _. apply account_missing in E.
    specialize (E user Hin). apply strict_eq_header in Heq. congruence.
Qed.

Example nameless_user_without_header :
  checksExistsUserAccount
    (serve_all empty_store [Samples.create_ana; Samples.create_nameless]).1
    (Samples.bare None "")
  = Next (attach_user 1 (Samples.bare None "")).
Proof. vm_compute. reflexivity. Qed.

(** ** Deleting twice *)

Lemma delete_todo_accepted (env : Env) (st : Store)
    (request r1 r2 : Request) :
  reachable st →
  checksExistsUserAccount st request = Next r1 →
  checksTodoExists st r1 = Next r2 →
  ∃ i user k l,
    is_account st (header_value (headers_username request)) i user ∧
    validate (params_id request) = true ∧
    u_todos user !! k = Some l ∧
    req_todo r2 = Some l ∧
    NoDup (u_todos user) ∧
    app DELETE_todos_id env st request
    = (with_users
         (<[i := set_todos (delete k (u_todos user)) user]> (users st)) st,
       mkResponse 204 PEmpty).
Proof.
  intros Hreach H1 H2.
  assert (app DELETE_todos_id env st request = delete_todo env st r2) as Happ.
  { unfold app, pipeline. by rewrite H1, H2. }
  apply checksExistsUserAccount_Next in H1 as (i0 & user0 & _ & ->).
  apply checksTodoExists_Next in H2
    as (Hval & i & user & before & l & after & Hacc & Htodos & _ & _ & ->).
  read_request in Hacc. read_request in Hval.
  pose proof (is_account_user_at _ _ _ _ Hacc) as Hat.
  destruct (owned_account st _ i user Hreach Hacc) as [Hnd _].
  assert (u_todos user !! length before = Some l) as Hk.
  { rewrite Htodos. by apply list_lookup_middle. }
  exists i, user, (length before), l. repeat (split; [done|]).
  rewrite Happ. unfold delete_todo. read_request. rewrite Hat.
  by rewrite (indexOf_NoDup _ _ _ Hnd Hk).
Qed.

(** X19: deleting the same task twice.  After a [DELETE /todos/:id]
    that passed both guards, the same request again is answered 404
    "Todo not found" and changes nothing, provided the deleted task was
    the only one of that user with the id. *)
Theorem delete_todo_then_again (env env' : Env) (st : Store)
    (request r1 r2 : Request) :
  reachable st →
  checksExistsUserAccount st request = Next r1 →
  checksTodoExists st r1 = Next r2 →
  (∀ i user l,
     is_account st (header_value (headers_username request)) i user →
     l ∈ u_todos user → t_id (todo_at st l) = params_id request →
     req_todo r2 = Some l) →
  let st1 := (app DELETE_todos_id env st request).1 in
  app DELETE_todos_id env' st1 request
  = (st1, error_response 404 "Todo not found").
Proof.
  intros Hreach H1 H2 Honly st1.
  destruct (delete_todo_accepted env st request r1 r2 Hreach H1 H2)
    as (i & user & k & l & Hacc & Hval & Hk & Hl & Hnd & Hdel).
  unfold st1. rewrite Hdel. cbn [fst]. clear st1.
  set (u1 := set_todos (delete k (u_todos user)) user).
  set (st1 := with_users _ st).
  pose proof (is_account_users st st1 _ i user u1 Hacc eq_refl eq_refl)
    as Hacc1.
  apply account_found in Hacc1.
  unfold app, pipeline, checksExistsUserAccount. rewrite Hacc1.
  unfold checksTodoExists. read_request. rewrite Hval, Hacc1. simpl negb.
  cbn iota.
  assert (existsb (λ l0, String.eqb (t_id (todo_at st1 l0)) (params_id request))
                  (u_todos u1) = false) as ->; [|reflexivity].
  apply existsb_false_Forall, Forall_forall. intros l' Hl'.
  apply String.eqb_neq. intros Hid.
  assert (l' ∈ u_todos user) as Hin.
  { eapply elem_of_sublist; [exact Hl'|apply sublist_delete]. }
  pose proof (Honly i user l' Hacc Hin Hid) as Hl2.
  assert (l' = l) as -> by congruence.
  by apply (not_elem_of_delete_NoDup (u_todos user) k l).
Qed.

Lemma delete_todo_then_again_witness :
  let request := Samples.bare (Some "ana") Samples.task_id in
  let st1 :=
    (app DELETE_todos_id (mkEnv "" 0) Samples.store_tasks request).1 in
  app DELETE_todos_id (mkEnv "" 1) st1 request
  = (st1, error_response 404 "Todo not found").
Proof.
  intros request st1.
  apply (delete_todo_then_again (mkEnv "" 0) (mkEnv "" 1)
           Samples.store_tasks request (attach_user 0 request)
           (attach_todo 1%positive (attach_user 0 request))).
  - apply reachable_serve_all, reachable_start.
  - vm_compute. reflexivity.
  - vm_compute. reflexivity.
  - intros i user l Hacc Hin Hid.
    assert (is_account Samples.store_tasks
              (header_value (headers_username request)) 0
              (user_at Samples.store_tasks 0)) as Hana.
    { split; [vm_compute; reflexivity|]. split; [vm_compute; reflexivity|].
      intros j u _ Hj. lia. }
    destruct (is_account_unique _ _ _ _ _ _ Hacc Hana) as [-> ->].
    vm_compute in Hin.
    apply elem_of_cons in Hin as [->|Hin]; [reflexivity|].
    apply list_elem_of_singleton in Hin as ->.
    vm_compute in Hid. discriminate.
Defined.

(** ** How the array [users] grows *)

Lemma same_length_refl (st : Store) : length (users st) = length (users st).
Proof. reflexivity. Qed.

(** X20: only a [POST /users] that is answered 201 adds a user: it
    appends one user, on the free plan and without tasks, at the end of
    [users]; every other request, whatever its outcome, leaves the
    number of users as it is. *)
Theorem users_grow_only_by_creation (st : Store) (c : Call) :
  let result := serve st c in
  (call_route c = POST_users ∧ status result.2 = 201 ∧
   ∃ u, users result.1 = users st ++ [u] ∧ u_pro u = false ∧ u_todos u = []) ∨
  ((call_route c ≠ POST_users ∨ status result.2 ≠ 201) ∧
   length (users result.1) = length (users st)).
Proof.
  intros result. unfold result, serve.
  generalize (incoming (call_request c)) as request.
  generalize (call_env c) as env. intros env request.
  destruct (call_route c) eqn:Hroute; unfold app;
    try (right; split; [by left|];
         apply (pipeline_related
                  (λ st st', length (users st') = length (users st))
                  same_length_refl); clear; intros env st r).
  - unfold pipeline, post_users.
    destruct (existsb _ (users st)); simpl.
    + right. split; [right; lia|done].
    + left. split; [done|]. split; [done|]. by eexists.
  - unfold get_user. by destruct (req_user r).
  - unfold patch_user_pro. destruct (req_user r) as [k|]; [|done].
    destruct (u_pro (user_at st k)); [done|]. simpl. apply length_insert.
  - unfold get_todos. by destruct (req_user r).
  - unfold post_todos.
    destruct (new_Date (body_deadline r)); [|done].
    destruct (req_user r) as [k|]; [|done].
    simpl. apply length_insert.
  - unfold put_todo. destruct (req_todo r); [|done].
    by destruct (new_Date (body_deadline r)).
  - unfold patch_todo_done. by destruct (req_todo r).
  - unfold delete_todo. destruct (req_user r) as [k|]; [|done].
    destruct (match req_todo r with Some l => _ | None => _ end); [|done].
    simpl. apply length_insert.
Qed.

(** ** Upgrading lifts the quota *)

(** X21: once [PATCH /users/:id/pro] has upgraded a user, a
    [POST /todos] under that user's username is never answered 403,
    however many tasks the user holds.  It is answered 201 and appends
    the new task to the user's array when [new Date(deadline)] returns;
    when it throws, the request is answered 500 and creates nothing. *)
Theorem upgrade_lifts_quota (env env' : Env) (st : Store)
    (upgrade request : Request) (i : nat) (user : User) :
  is_user_by_id st (params_id upgrade) i user →
  is_account st (header_value (headers_username request)) i user →
  u_pro user = false →
  let st1 := (app PATCH_users_id_pro env st upgrade).1 in
  let posted := app POST_todos env' st1 request in
  let l := fresh (dom (heap st)) in
  (to_primitive_throws (body_deadline request) = false →
   status posted.2 = 201 ∧
   users posted.1
   = <[i := mkUser (u_id user) (u_name user) (u_username user) true
                   (u_todos user ++ [l])]> (users st)) ∧
  (to_primitive_throws (body_deadline request) = true →
   posted = (st1, mkResponse 500 PException)).
Proof.
  intros Hid Hacc Hpro st1 posted l.
  pose proof (is_user_by_id_user_at _ _ _ _ Hid) as Hat.
  assert (st1 = with_users (<[i := set_pro true user]> (users st)) st) as Hst1.
  { unfold st1, app, pipeline, findUserById.
    apply user_by_id_found in Hid. rewrite Hid.
    unfold patch_user_pro. read_request. by rewrite Hat, Hpro. }
  assert (is_account st1 (header_value (headers_username request)) i
            (set_pro true user)) as Hacc1.
  { apply (is_account_users st st1 _ i user); [done| |done]. by rewrite Hst1. }
  unfold posted.
  rewrite (post_todos_result env' st1 request i _ Hacc1). cbv zeta.
  change (u_pro (set_pro true user)) with true. rewrite orb_true_r.
  split; intros ->; [|reflexivity].
  split; [reflexivity|]. cbn [fst users]. rewrite Hst1. simpl.
  by rewrite list_insert_insert_eq.
Qed.

Lemma upgrade_lifts_quota_witness :
  status
    (app POST_todos (mkEnv Samples.other_task_id 9)
         (app PATCH_users_id_pro (mkEnv "" 0) Samples.store_full
              (Samples.bare None Samples.ana_id)).1
         (Samples.bare (Some "ana") "")).2
  = 201.
Proof.
  pose proof (upgrade_lifts_quota (mkEnv "" 0) (mkEnv Samples.other_task_id 9)
                Samples.store_full (Samples.bare None Samples.ana_id)
                (Samples.bare (Some "ana") "") 0
                (user_at Samples.store_full 0)) as H.
  cbv zeta in H. apply H.
  - split; [vm_compute; reflexivity|]. split; [vm_compute; reflexivity|].
    intros j u _ Hj. lia.
  - split; [vm_compute; reflexivity|]. split; [vm_compute; reflexivity|].
    intros j u _ Hj. lia.
  - vm_compute. reflexivity.
  - reflexivity.
Defined.
